(** * opentopodata: the query parsing, validation and orchestration pipeline

    A shallow embedding of [opentopodata/api.py].  Python values are modelled
    as follows:
    - [str] is [string] (characters are code points below 256);
    - [int] is [Z];
    - [float] is the binary64 type [float] of [PrimFloat], so that the
      comparisons [LAT_MIN <= lat <= LAT_MAX] have their IEEE meaning
      (in particular for NaN and the infinities);
    - a raised exception is the [Raise] branch of [result];
    - the datasets dict is a [gmap string Dataset].

    Two things the module calls are not part of it: the builtin [float()] and
    the third-party [polyline.decode].  The functions of the parser take both
    as section variables, so every general theorem holds for whatever these
    two do; concrete instances are given further down for the examples. *)

From stdpp Require Import base strings gmap.
From Stdlib Require Import ZArith List String Ascii Bool Lia DecimalString.
From Stdlib Require Import Floats.
Import ListNotations.
Local Open Scope string_scope.
Local Open Scope Z_scope.

(** ** Exceptions *)

(** The exception classes [get_elevation] tells apart.  Each carries what
    [str(e)] returns. *)
Inductive exn : Type :=
| ClientError (msg : string)       (* api.ClientError *)
| InputError (msg : string)        (* backend.InputError *)
| ConfigError (msg : string)       (* config.ConfigError *)
| OtherException (detail : string) (* any other Exception *).

Inductive result (A : Type) : Type :=
| Ok (a : A)
| Raise (e : exn).
Arguments Ok {A} a.
Arguments Raise {A} e.

Definition bind {A B : Type} (r : result A) (k : A -> result B) : result B :=
  match r with
  | Ok a => k a
  | Raise e => Raise e
  end.

Notation "x <- e ;; k" := (bind e (fun x => k))
  (at level 100, e at next level, k at level 200, right associativity).

(** ** The fragments of Python's [str] the module uses *)

Module Py.

(** [needle in s]. *)
Fixpoint str_in (needle s : string) : bool :=
  String.prefix needle s ||
  match s with
  | EmptyString => false
  | String _ s' => str_in needle s'
  end.

(** [s.lstrip(c)], [s.rstrip(c)] and [s.strip(c)] for a one-character [c]. *)
Fixpoint lstrip (c : ascii) (s : string) : string :=
  match s with
  | EmptyString => EmptyString
  | String a s' => if Ascii.eqb a c then lstrip c s' else s
  end.

Fixpoint rstrip (c : ascii) (s : string) : string :=
  match s with
  | EmptyString => EmptyString
  | String a s' =>
      match rstrip c s' with
      | EmptyString => if Ascii.eqb a c then EmptyString else String a EmptyString
      | r => String a r
      end
  end.

Definition strip (c : ascii) (s : string) : string := rstrip c (lstrip c s).

(** [s.split(sep)] for a one-character [sep]: never the empty list. *)
Fixpoint split (sep : ascii) (s : string) : list string :=
  match s with
  | EmptyString => [EmptyString]
  | String a s' =>
      if Ascii.eqb a sep then EmptyString :: split sep s'
      else match split sep s' with
           | h :: t => String a h :: t
           | [] => [String a EmptyString]
           end
  end.

(** [s.split(sep, 1)] for a one-character [sep]. *)
Fixpoint split1 (sep : ascii) (s : string) : list string :=
  match s with
  | EmptyString => [EmptyString]
  | String a s' =>
      if Ascii.eqb a sep then [EmptyString; s']
      else match split1 sep s' with
           | h :: t => String a h :: t
           | [] => [String a EmptyString]
           end
  end.

(** [s[n:]]. *)
Fixpoint drop (n : nat) (s : string) : string :=
  match n, s with
  | O, _ => s
  | S n', String _ s' => drop n' s'
  | S _, EmptyString => EmptyString
  end.

(** [sep.join(l)]. *)
Definition join (sep : string) (l : list string) : string := String.concat sep l.

(** [str(n)] and the [{n}] of an f-string, for an int. *)
Definition str_of_int (n : Z) : string := NilZero.string_of_int (Z.to_int n).

(** [l[i]]: an index out of range raises IndexError. *)
Definition getitem {A : Type} (l : list A) (i : nat) : result A :=
  match nth_error l i with
  | Some x => Ok x
  | None => Raise (OtherException "list index out of range")
  end.

(** [not s] for an optional string: true of [None] and of the empty string. *)
Definition falsy (s : option string) : bool :=
  match s with
  | None => true
  | Some s => String.eqb s EmptyString
  end.

End Py.

(** ** Constants of the module *)

Definition DEFAULT_INTERPOLATION_METHOD : string := "bilinear".
Definition LAT_MIN : Z := -90.
Definition LAT_MAX : Z := 90.
Definition LON_MIN : Z := -180.
Definition LON_MAX : Z := 180.

(** [n <= x] and [x <= n] between an int and a float.  Python compares the two
    exactly; the four bounds are binary64 values, so comparing with the bound
    as a float is the same comparison. *)
Definition float_of_bound (n : Z) : float :=
  SF2Prim (binary_normalize prec emax n 0 false).
Definition int_le_float (n : Z) (x : float) : bool := PrimFloat.leb (float_of_bound n) x.
Definition float_le_int (x : float) (n : Z) : bool := PrimFloat.leb x (float_of_bound n).

(** ** The location parsers *)

Section Parser.

(** [float(s)]: [None] stands for ValueError. *)
Variable py_float : string -> option float.
(** [polyline.decode(s)]: [None] stands for any exception it raises. *)
Variable polyline_decode : string -> option (list (float * float)).

(** The body of the loop of [_parse_latlon_locations] (api.py 184-211) for
    the location [loc] at index [i] of the enumeration. *)
Definition parse_latlon (i : nat) (loc : string) : result (float * float) :=
  if negb (Py.str_in "," loc) then
    Raise (ClientError
             ("Unable to parse location '" ++ loc ++ "' in position "
                ++ Py.str_of_int (Z.of_nat i + 1) ++ "."
                ++ " Add locations like lat1,lon1|lat2,lon2."))
  else
    let parts := Py.split1 "," loc in
    lat <- Py.getitem parts 0 ;;
    lon <- Py.getitem parts 1 ;;
    match py_float lat, py_float lon with
    | Some lat, Some lon =>
        if negb (int_le_float LAT_MIN lat && float_le_int lat LAT_MAX) then
          Raise (ClientError
                   ("Unable to parse location '" ++ loc ++ "' in position "
                      ++ Py.str_of_int (Z.of_nat i + 1) ++ "."
                      ++ " Latitude must be between " ++ Py.str_of_int LAT_MIN
                      ++ " and " ++ Py.str_of_int LAT_MAX ++ "."
                      ++ " Provide locations in lat,lon order."))
        else if negb (int_le_float LON_MIN lon && float_le_int lon LON_MAX) then
          Raise (ClientError
                   ("Unable to parse location '" ++ loc ++ "' in position "
                      ++ Py.str_of_int (Z.of_nat i + 1) ++ "."
                      ++ " Longitude must be between " ++ Py.str_of_int LON_MIN
                      ++ " and " ++ Py.str_of_int LON_MAX ++ "."))
        else Ok (lat, lon)
    | _, _ =>
        Raise (ClientError
                 ("Unable to parse location '" ++ loc ++ "' in position "
                    ++ Py.str_of_int (Z.of_nat i + 1) ++ "."))
    end.

(** The loop itself: [lats] and [lons] are the two lists being appended to,
    [i] the index [enumerate] has reached. *)
Fixpoint parse_each (i : nat) (locations : list string) (lats lons : list float)
  : result (list float * list float) :=
  match locations with
  | [] => Ok (lats, lons)
  | loc :: rest =>
      p <- parse_latlon i loc ;;
      parse_each (S i) rest (lats ++ [fst p])%list (lons ++ [snd p])%list
  end.

Definition _parse_latlon_locations (locations : string) (max_n_locations : Z)
  : result (list float * list float) :=
  let locations := Py.split "|" (Py.strip "|" locations) in
  let n_locations := Z.of_nat (List.length locations) in
  if n_locations >? max_n_locations then
    Raise (ClientError
             ("Too many locations provided (" ++ Py.str_of_int n_locations
                ++ "), the limit is " ++ Py.str_of_int max_n_locations ++ "."))
  else parse_each 0 locations [] [].

Definition _parse_polyline_locations (locations : string) (max_n_locations : Z)
  : result (list float * list float) :=
  let locations :=
    if negb (String.eqb locations "") && String.prefix "enc:" locations
    then Py.drop 4 locations else locations in
  match polyline_decode locations with
  | None => Raise (ClientError "Unable to parse locations as polyline.")
  | Some latlons =>
      let lats := map fst latlons in
      let lons := map snd latlons in
      let n_locations := Z.of_nat (List.length lats) in
      if n_locations >? max_n_locations then
        Raise (ClientError
                 ("Too many locations provided (" ++ Py.str_of_int n_locations
                    ++ "), the limit is " ++ Py.str_of_int max_n_locations ++ "."))
      else Ok (lats, lons)
  end.

Definition _parse_locations (locations : option string) (max_n_locations : Z)
  : result (list float * list float) :=
  if Py.falsy locations then
    Raise (ClientError
             ("No locations provided."
                ++ " Add locations in a query string: ?locations=lat1,lon1|lat2,lon2."))
  else
    (* [locations] is a string here: [None] is falsy. *)
    let locations := default "" locations in
    if Py.str_in "," locations then _parse_latlon_locations locations max_n_locations
    else _parse_polyline_locations locations max_n_locations.

End Parser.

(** ** The request handler *)

(** What [jsonify] is given. *)
#[warnings="-register-all"]
Inductive json : Type :=
| JNull
| JFloat (x : float)
| JString (s : string)
| JList (items : list json)
| JObject (fields : list (string * json)).

Record response : Type := { body : json; status_code : Z }.

(** [request.args.get] for the two parameters the handler reads. *)
Record request_args : Type := {
  arg_interpolation : option string;
  arg_locations : option string
}.

(** The keys of the config dict the handler reads. *)
Record config : Type := {
  max_locations_per_request : Z;
  access_control_allow_origin : string
}.

(** How a call of the view function ends: with a response, or with an
    exception that leaves it. *)
Inductive outcome : Type :=
| Responds (r : response)
| Propagates (e : exn).

Section Handler.

Variable py_float : string -> option float.
Variable polyline_decode : string -> option (list (float * float)).

(** What the handler is given from outside api.py: the method registry of
    the backend (a dict, in the order of its keys); what [_load_config] and
    [_load_datasets] return or raise, that is, what [config.load_config] and
    [config.load_datasets] did when the cache was filled;
    [backend.get_elevation]; and [app.debug]. *)
Variable Method : Type.
Variable Dataset : Type.
Variable INTERPOLATION_METHODS : list (string * Method).
Variable _load_config : result config.
Variable _load_datasets : result (gmap string Dataset).
Variable backend_get_elevation :
  list float -> list float -> Dataset -> string -> result (list (option float)).
Variable debug : bool.

Definition _validate_interpolation (method : string) : result string :=
  if negb (existsb (String.eqb method) (map fst INTERPOLATION_METHODS)) then
    Raise (ClientError
             ("Invalid interpolation method '" ++ method ++ "' not recognized."
                ++ " Valid interpolation methods: "
                ++ Py.join ", " (map fst INTERPOLATION_METHODS) ++ "."))
  else Ok method.

Definition _get_dataset (name : string) : result Dataset :=
  datasets <- _load_datasets ;;
  match datasets !! name with
  | None => Raise (ClientError ("Dataset '" ++ name ++ "' not in config."))
  | Some dataset => Ok dataset
  end.

Definition json_of_elevation (z : option float) : json :=
  match z with
  | Some z => JFloat z
  | None => JNull
  end.

(** The [try] block of [get_elevation] (api.py 272-289). *)
Definition get_elevation_try (dataset_name : string) (args : request_args)
  : result response :=
  let interpolation := default DEFAULT_INTERPOLATION_METHOD (arg_interpolation args) in
  interpolation <- _validate_interpolation interpolation ;;
  let locations := arg_locations args in
  cfg <- _load_config ;;
  batch <- _parse_locations py_float polyline_decode locations
             (max_locations_per_request cfg) ;;
  let lats := fst batch in
  let lons := snd batch in
  dataset <- _get_dataset dataset_name ;;
  elevations <- backend_get_elevation lats lons dataset interpolation ;;
  let results :=
    map (fun r =>
           JObject [("elevation", json_of_elevation (fst r));
                    ("location", JObject [("lat", JFloat (fst (snd r)));
                                          ("lng", JFloat (snd (snd r)))])])
      (combine elevations (combine lats lons)) in
  Ok {| body := JObject [("status", JString "OK"); ("results", JList results)];
        status_code := 200 |}.

(** [get_elevation]: the [try] block under its three [except] clauses.  The
    second component is what [app.logger.error] was given. *)
Definition get_elevation (dataset_name : string) (args : request_args)
  : outcome * list string :=
  match get_elevation_try dataset_name args with
  | Ok r => (Responds r, [])
  | Raise (ClientError msg) | Raise (InputError msg) =>
      (Responds {| body := JObject [("status", JString "INVALID_REQUEST");
                                    ("error", JString msg)];
                   status_code := 400 |}, [])
  | Raise (ConfigError msg) =>
      (Responds {| body := JObject [("status", JString "SERVER_ERROR");
                                    ("error", JString msg)];
                   status_code := 500 |}, [])
  | Raise (OtherException detail) =>
      if debug then (Propagates (OtherException detail), [])
      else
        (Responds {| body := JObject [("status", JString "SERVER_ERROR");
                                      ("error", JString "Server error, please retry request.")];
                     status_code := 500 |}, [detail])
  end.

End Handler.

(** ** The other views and the CORS hook *)

(** [health_check]: the dict given to [jsonify], and the status. *)
Definition health_check : list (string * bool) * Z := ([("ok", true)], 200).

Definition get_help_message : response :=
  {| body :=
       JObject
         [("status", JString "INVALID_REQUEST");
          ("error",
           JString ("No dataset name provided."
                      ++ " Try a url like '/v1/test-dataset?locations=-10,120' to get started,"
                      ++ " and see https://www.opentopodata.org for full documentation."))];
     status_code := 404 |}.

(** The response object an [after_request] hook is given: what the view
    returned, and the headers.  Flask compares header names without case;
    the names are kept in lower case here. *)
Record flask_response (B : Type) : Type := {
  view_result : B;
  headers : gmap string string
}.
Arguments view_result {B} _.
Arguments headers {B} _.

Section Hooks.

Variable py_float : string -> option float.
Variable polyline_decode : string -> option (list (float * float)).
Variable Method : Type.
Variable Dataset : Type.
Variable INTERPOLATION_METHODS : list (string * Method).
Variable _load_config : result config.
Variable _load_datasets : result (gmap string Dataset).
Variable backend_get_elevation :
  list float -> list float -> Dataset -> string -> result (list (option float)).
Variable debug : bool.

(** [apply_cors]: the config is read for the test and read again for the
    value; the response is the one it was given, with the header set. *)
Definition apply_cors {B : Type} (response : flask_response B)
  : result (flask_response B) :=
  cfg <- _load_config ;;
  if negb (String.eqb (access_control_allow_origin cfg) "") then
    cfg <- _load_config ;;
    Ok {| view_result := view_result response;
          headers := <["access-control-allow-origin" := access_control_allow_origin cfg]>
                       (headers response) |}
  else Ok response.

(** A request to [/v1/<dataset_name>], as the two decorators have Flask serve
    it: the view, then the [after_request] hook on the response of the view,
    which starts with the headers [base] Flask gave it.  An exception that
    leaves the view leaves the request. *)
Definition elevation_request (base : gmap string string) (dataset_name : string)
    (args : request_args) : result (flask_response response) * list string :=
  match get_elevation py_float polyline_decode Method Dataset INTERPOLATION_METHODS
          _load_config _load_datasets backend_get_elevation debug dataset_name args with
  | (Responds r, log) => (apply_cors {| view_result := r; headers := base |}, log)
  | (Propagates e, log) => (Raise e, log)
  end.

End Hooks.

(** ** The polyline codec *)

Module Polyline.

(** The float nearest to the int [n], ties to even, as Python converts an int
    operand of [/]; [None] stands for OverflowError. *)
Definition float_of_int (n : Z) : option float :=
  let x := SF2Prim (binary_normalize prec emax n 0 false) in
  if PrimFloat.is_infinity x then None else Some x.

(** Modelled from the spec: [polyline.decode] belongs to the third-party
    polyline package, which is not part of the repository.  The spec names the
    algorithm (Google's encoded-polyline format: base-32 chunks of five bits,
    least significant first, a continuation flag 0x20, zig-zag signs, deltas,
    five decimal digits); the definitions follow the package's [_trans] and
    [decode].  [_trans value result shift] reads one number from the front of
    [value], which stands for [value[index:]], and returns it with the rest of
    the string; [None] stands for the IndexError of reading past the end. *)
Fixpoint _trans (value : string) (result shift : Z) : option (Z * string) :=
  match value with
  | EmptyString => None
  | String ch rest =>
      let byte := Z.of_N (N_of_ascii ch) - 63 in
      let result := Z.lor result (Z.shiftl (Z.land byte 31) shift) in
      let shift := shift + 5 in
      if byte >=? 32 then _trans rest result shift
      else if Z.land result 1 =? 0 then Some (Z.shiftr result 1, rest)
      else Some (Z.lnot (Z.shiftr result 1), rest)
  end.

(** [float(10 ** precision)] for the default precision. *)
Definition factor : float := 100000%float.

(** Modelled from the spec: the loop of the package's [decode], missing from
    the repository like [_trans].  [expression] stands for
    [expression[index:]].  Every round consumes at least two characters, so
    [fuel] is never what ends the loop when it starts at the length of the
    string ([PolylineFacts.decode_loop_fuel]). *)
Fixpoint decode_loop (fuel : nat) (expression : string) (lat lng : Z)
    (coordinates : list (float * float)) : option (list (float * float)) :=
  match expression with
  | EmptyString => Some coordinates
  | String _ _ =>
      match fuel with
      | O => None
      | S fuel =>
          match _trans expression 0 0 with
          | None => None
          | Some (lat_change, expression) =>
              match _trans expression 0 0 with
              | None => None
              | Some (lng_change, expression) =>
                  let lat := lat + lat_change in
                  let lng := lng + lng_change in
                  match float_of_int lat, float_of_int lng with
                  | Some x, Some y =>
                      decode_loop fuel expression lat lng
                        (coordinates ++ [(PrimFloat.div x factor, PrimFloat.div y factor)])%list
                  | _, _ => None
                  end
              end
          end
      end
  end.

(** Modelled from the spec: the package's [decode(expression)] at its default
    precision of five digits; [None] stands for any exception. *)
Definition decode (expression : string) : option (list (float * float)) :=
  decode_loop (String.length expression) expression 0 0 [].

End Polyline.

(** ** Decimal literals *)

Module Decimal.

Definition digit (a : ascii) : option Z :=
  let n := Z.of_N (N_of_ascii a) in
  if (48 <=? n) && (n <=? 57) then Some (n - 48) else None.

(** The digits at the front of [s]: their value on top of [acc], how many
    there are on top of [n], and the rest of the string. *)
Fixpoint digits (s : string) (acc n : Z) : Z * Z * string :=
  match s with
  | EmptyString => (acc, n, s)
  | String a s' =>
      match digit a with
      | Some d => digits s' (10 * acc + d) (n + 1)
      | None => (acc, n, s)
      end
  end.

(** The binary64 value nearest to [num / den], ties to even, for [num >= 0]
    and [den > 0]: the quotient is taken with at least 66 significant bits and
    a sticky bit for the remainder, then rounded once. *)
Definition round_ratio (num den : Z) : float :=
  let s := Z.max 0 (66 + Z.log2 den - Z.log2 num) in
  let q := Z.shiftl num s / den in
  let sticky := if Z.shiftl num s mod den =? 0 then 0 else 1 in
  SF2Prim (binary_normalize prec emax (2 * q + sticky) (- (s + 1)) false).

Definition unsigned (s : string) : option float :=
  let '(i, ni, s1) := digits s 0 0 in
  match s1 with
  | EmptyString => if ni =? 0 then None else Some (round_ratio i 1)
  | String "." s2 =>
      let '(num, n, s3) := digits s2 i ni in
      match s3 with
      | EmptyString => if n =? 0 then None else Some (round_ratio num (10 ^ (n - ni)))
      | String _ _ => None
      end
  | String _ _ => None
  end.

(** An instance of [float()] for the examples: what [float(s)] returns on a
    plain decimal literal (an optional sign, digits, an optional point and
    digits).  The other spellings [float()] accepts (exponents, [inf], [nan],
    underscores, surrounding blanks) are left out; no example uses them. *)
Definition float_of_decimal (s : string) : option float :=
  match s with
  | String "-" s' => option_map PrimFloat.opp (unsigned s')
  | String "+" s' => unsigned s'
  | _ => unsigned s
  end.

End Decimal.

(** ** A deployment for the examples *)

Module Example.

(** Three methods, one dataset, a limit of 100 locations and a backend that
    puts every point at 815 metres. *)
Definition methods : list (string * unit) :=
  [("nearest", tt); ("bilinear", tt); ("cubic", tt)].
Definition datasets : gmap string unit := {["test-dataset" := tt]}.
Definition cfg : config :=
  {| max_locations_per_request := 100; access_control_allow_origin := "*" |}.
Definition backend (lats lons : list float) (dataset : unit) (method : string)
  : result (list (option float)) :=
  Ok (map (fun _ => Some 815%float) lats).

(** The handler of this deployment, given how the config loads, what the
    backend does and the debug flag. *)
Definition serve (_load_config : result config)
    (backend : list float -> list float -> unit -> string -> result (list (option float)))
    (debug : bool) : string -> request_args -> outcome * list string :=
  get_elevation Decimal.float_of_decimal Polyline.decode unit unit methods
    _load_config (Ok datasets) backend debug.

End Example.

(** * The vocabulary of the statements *)

(** [has_char c s]: the character [c] occurs in [s]. *)
Definition has_char (c : ascii) (s : string) : Prop :=
  In c (list_ascii_of_string s).

(** The two range tests of the loop, as the code writes them. *)
Definition lat_in_range (lat : float) : bool :=
  int_le_float LAT_MIN lat && float_le_int lat LAT_MAX.
Definition lon_in_range (lon : float) : bool :=
  int_le_float LON_MIN lon && float_le_int lon LON_MAX.

(** What [_parse_polyline_locations] hands to [polyline.decode]: the string
    after one leading [enc:], when there is one. *)
Definition polyline_body (raw : string) : string :=
  if String.prefix "enc:" raw then Py.drop 4 raw else raw.

(** A segment [loc] reads as the point [v]: it is [a,b] with no comma in [a],
    [float(a)] and [float(b)] are the two coordinates, and both are in
    range. *)
Definition reads_as (py_float : string -> option float) (loc : string)
    (v : float * float) : Prop :=
  exists a b,
    loc = a ++ String "," b /\ ~ has_char "," a /\
    py_float a = Some (fst v) /\ py_float b = Some (snd v) /\
    lat_in_range (fst v) = true /\ lon_in_range (snd v) = true.

(** A batch written as the claim writes it: [lat1,lon1|...|latN,lonN]. *)
Definition delimited (pairs : list (string * string)) : string :=
  Py.join "|" (map (fun p => fst p ++ "," ++ snd p) pairs).

(** [written_as p v]: the two texts of [p] hold no separator, the first no
    comma, and [float()] reads them as the coordinates of [v], which are in
    range. *)
Definition written_as (py_float : string -> option float) (p : string * string)
    (v : float * float) : Prop :=
  ~ has_char "," (fst p) /\ ~ has_char "|" (fst p) /\ ~ has_char "|" (snd p) /\
  py_float (fst p) = Some (fst v) /\ py_float (snd p) = Some (snd v) /\
  lat_in_range (fst v) = true /\ lon_in_range (snd v) = true.

(** The binary64 values nearest to 90.0001 and to 180.1: numerator and
    denominator are binary64 values, so the quotient is rounded once. *)
Definition f90_0001 : float := PrimFloat.div 900001 10000.
Definition f180_1 : float := PrimFloat.div 1801 10.

(** The two error envelopes. *)
Definition invalid_request (msg : string) : response :=
  {| body := JObject [("status", JString "INVALID_REQUEST"); ("error", JString msg)];
     status_code := 400 |}.
Definition server_error (msg : string) : response :=
  {| body := JObject [("status", JString "SERVER_ERROR"); ("error", JString msg)];
     status_code := 500 |}.

(** [only_char c s]: [s] is made of the character [c] alone. *)
Definition only_char (c : ascii) (s : string) : Prop :=
  forall a, has_char a s -> a = c.

(** One entry of the results list of a successful answer. *)
Definition result_entry (z : option float) (lat lon : float) : json :=
  JObject [("elevation", json_of_elevation z);
           ("location", JObject [("lat", JFloat lat); ("lng", JFloat lon)])].

(** * Facts about the string operations *)

Module PyFacts.

Lemma prefix_char (c a : ascii) (s : string) :
  String.prefix (String c EmptyString) (String a s) = Ascii.eqb a c.
Proof.
  simpl. destruct (ascii_dec c a) as [->|Hne].
  - rewrite Ascii.eqb_refl. now destruct s.
  - symmetry. apply Ascii.eqb_neq. congruence.
Qed.

Lemma prefix_cons (c a : ascii) (s1 s2 : string) :
  String.prefix (String c s1) (String a s2) = Ascii.eqb c a && String.prefix s1 s2.
Proof.
  simpl. destruct (ascii_dec c a) as [->|Hne].
  - now rewrite Ascii.eqb_refl.
  - apply Ascii.eqb_neq in Hne. now rewrite Hne.
Qed.

Lemma str_in_cons (c a : ascii) (s : string) :
  Py.str_in (String c EmptyString) (String a s)
  = Ascii.eqb a c || Py.str_in (String c EmptyString) s.
Proof.
  change (Py.str_in (String c EmptyString) (String a s))
    with (String.prefix (String c EmptyString) (String a s)
          || Py.str_in (String c EmptyString) s).
  now rewrite prefix_char.
Qed.

Lemma str_in_char (c : ascii) (s : string) :
  Py.str_in (String c EmptyString) s = true <-> has_char c s.
Proof.
  unfold has_char. induction s as [|a s IH].
  - simpl. split; [discriminate | tauto].
  - rewrite str_in_cons, orb_true_iff, IH, Ascii.eqb_eq. simpl. tauto.
Qed.

Lemma str_in_char_false (c : ascii) (s : string) :
  Py.str_in (String c EmptyString) s = false <-> ~ has_char c s.
Proof.
  rewrite <- str_in_char. destruct (Py.str_in _ s); split; congruence.
Qed.

Lemma has_char_app (c : ascii) (s t : string) :
  has_char c (s ++ t) <-> has_char c s \/ has_char c t.
Proof.
  unfold has_char. induction s as [|a s IH]; simpl.
  - tauto.
  - rewrite IH. tauto.
Qed.

Lemma has_char_cons (c a : ascii) (s : string) :
  has_char c (String a s) <-> a = c \/ has_char c s.
Proof. reflexivity. Qed.

Lemma has_char_split (c : ascii) (s : string) :
  has_char c s ->
  exists a b, s = a ++ String c b /\ ~ has_char c a.
Proof.
  induction s as [|x s IH]; intros H.
  - destruct H.
  - destruct (ascii_dec x c) as [->|Hne].
    + exists EmptyString, s. split; [reflexivity | intros []].
    + destruct H as [H|H]; [contradiction|].
      destruct (IH H) as (a & b & -> & Ha).
      exists (String x a), b. split; [reflexivity|].
      rewrite has_char_cons. tauto.
Qed.

Lemma split_not_nil (sep : ascii) (s : string) : Py.split sep s <> [].
Proof.
  destruct s as [|a s]; simpl; [discriminate|].
  destruct (Ascii.eqb a sep); [discriminate|].
  destruct (Py.split sep s); discriminate.
Qed.

Lemma split_length (sep : ascii) (s : string) :
  (1 <= List.length (Py.split sep s))%nat.
Proof.
  pose proof (split_not_nil sep s). destruct (Py.split sep s); simpl; [congruence | lia].
Qed.

Lemma split_no_sep (sep : ascii) (s : string) :
  ~ has_char sep s -> Py.split sep s = [s].
Proof.
  induction s as [|a s IH]; intros H; simpl; [reflexivity|].
  rewrite has_char_cons in H.
  destruct (Ascii.eqb_spec a sep) as [->|Hne]; [tauto|].
  rewrite IH by tauto. reflexivity.
Qed.

Lemma split_app_sep (sep : ascii) (a rest : string) :
  ~ has_char sep a ->
  Py.split sep (a ++ String sep rest) = a :: Py.split sep rest.
Proof.
  induction a as [|x a IH]; intros H; simpl.
  - now rewrite Ascii.eqb_refl.
  - rewrite has_char_cons in H.
    destruct (Ascii.eqb_spec x sep) as [->|Hne]; [tauto|].
    rewrite IH by tauto. reflexivity.
Qed.

Lemma split1_app_sep (sep : ascii) (a b : string) :
  ~ has_char sep a ->
  Py.split1 sep (a ++ String sep b) = [a; b].
Proof.
  induction a as [|x a IH]; intros H; simpl.
  - now rewrite Ascii.eqb_refl.
  - rewrite has_char_cons in H.
    destruct (Ascii.eqb_spec x sep) as [->|Hne]; [tauto|].
    rewrite IH by tauto. reflexivity.
Qed.

Lemma lstrip_head (c a : ascii) (s : string) :
  a <> c -> Py.lstrip c (String a s) = String a s.
Proof. intros H. simpl. now destruct (Ascii.eqb_spec a c). Qed.

Lemma rstrip_no_char (c : ascii) (s : string) :
  ~ has_char c s -> Py.rstrip c s = s.
Proof.
  induction s as [|a s IH]; intros H; simpl; [reflexivity|].
  rewrite has_char_cons in H. rewrite IH by tauto.
  destruct s; [|reflexivity].
  destruct (Ascii.eqb_spec a c) as [->|Hne]; [tauto | reflexivity].
Qed.

Lemma rstrip_app (c : ascii) (x y : string) :
  y <> EmptyString -> ~ has_char c y -> Py.rstrip c (x ++ y) = x ++ y.
Proof.
  intros Hy Hc. induction x as [|a x IH].
  - now apply rstrip_no_char.
  - change (String a x ++ y) with (String a (x ++ y)).
    cbn [Py.rstrip]. rewrite IH. destruct (x ++ y) eqn:E; [|reflexivity].
    destruct x; [|discriminate]. now destruct y.
Qed.

Lemma join_cons (sep x y : string) (l : list string) :
  Py.join sep (x :: y :: l) = x ++ sep ++ Py.join sep (y :: l).
Proof. reflexivity. Qed.

Lemma append_assoc (x y z : string) : (x ++ y) ++ z = x ++ y ++ z.
Proof.
  induction x as [|a x IH]; [reflexivity|].
  change (String a (((x ++ y) ++ z)) = String a (x ++ y ++ z)). now rewrite IH.
Qed.

Lemma append_nil_r (x : string) : x ++ "" = x.
Proof.
  induction x as [|a x IH]; [reflexivity|].
  change (String a (x ++ "") = String a x). now rewrite IH.
Qed.

(** A joined list ends with its last string. *)
Lemma join_last (sep : string) (l : list string) :
  l <> [] -> exists pre, Py.join sep l = pre ++ List.last l "".
Proof.
  induction l as [|x [|y l] IH]; intros H; [congruence | now exists "" |].
  destruct IH as [pre E]; [discriminate|].
  exists (x ++ sep ++ pre). rewrite join_cons, E.
  change (List.last (x :: y :: l) "") with (List.last (y :: l) "").
  now rewrite !append_assoc.
Qed.

(** Splitting what was joined gives the strings back, when none of them holds
    the separator. *)
Lemma split_join (sep : ascii) (l : list string) :
  l <> [] -> Forall (fun s => ~ has_char sep s) l ->
  Py.split sep (Py.join (String sep "") l) = l.
Proof.
  induction l as [|x [|y l] IH]; intros H Hl; [congruence | |].
  - apply Forall_inv in Hl. now apply split_no_sep.
  - rewrite join_cons.
    change (x ++ String sep "" ++ Py.join (String sep "") (y :: l))
      with (x ++ String sep (Py.join (String sep "") (y :: l))).
    rewrite split_app_sep by (now apply Forall_inv in Hl).
    rewrite IH; [reflexivity | discriminate | now apply Forall_inv_tail in Hl].
Qed.

(** Stripping a joined list of strings that are not empty and hold no [c]
    changes nothing. *)
Lemma strip_join (c : ascii) (sep : string) (l : list string) :
  l <> [] -> Forall (fun s => s <> "" /\ ~ has_char c s) l ->
  Py.strip c (Py.join sep l) = Py.join sep l.
Proof.
  intros H Hl. unfold Py.strip.
  assert (Hl' : Py.lstrip c (Py.join sep l) = Py.join sep l).
  { destruct l as [|x l]; [congruence|].
    apply Forall_inv in Hl. destruct Hl as [Hx Hc].
    destruct x as [|a x]; [congruence|].
    assert (Ha : a <> c) by (intros ->; apply Hc; now left).
    destruct l as [|y l]; [now apply lstrip_head|].
    rewrite join_cons.
    change (String a x ++ sep ++ Py.join sep (y :: l))
      with (String a (x ++ sep ++ Py.join sep (y :: l))).
    now apply lstrip_head. }
  rewrite Hl'. destruct (join_last sep l H) as [pre E]. rewrite E.
  assert (Hlast : In (List.last l "") l).
  { clear -H. induction l as [|x [|y l] IH]; [congruence | now left |].
    right. apply IH. discriminate. }
  rewrite Forall_forall in Hl. destruct (Hl _ Hlast) as [Hne Hc].
  now apply rstrip_app.
Qed.

Lemma prefix_nil (s : string) : String.prefix "" s = true.
Proof. now destruct s. Qed.

Lemma prefix_app (k post : string) : String.prefix k (k ++ post) = true.
Proof.
  induction k as [|a k IH]; [apply prefix_nil|].
  change (String a k ++ post) with (String a (k ++ post)).
  now rewrite prefix_cons, Ascii.eqb_refl, IH.
Qed.

Lemma str_in_unfold (needle s : string) :
  Py.str_in needle s
  = String.prefix needle s
    || match s with
       | EmptyString => false
       | String _ s' => Py.str_in needle s'
       end.
Proof. now destruct s. Qed.

(** [k in pre + k + post]. *)
Lemma str_in_app (k pre post : string) : Py.str_in k (pre ++ k ++ post) = true.
Proof.
  induction pre as [|a pre IH].
  - change ("" ++ k ++ post) with (k ++ post).
    now rewrite str_in_unfold, prefix_app.
  - change (String a pre ++ k ++ post) with (String a (pre ++ k ++ post)).
    rewrite str_in_unfold, IH. apply orb_true_r.
Qed.

(** A joined list holds each of its strings. *)
Lemma join_holds (sep k : string) (l : list string) :
  In k l -> exists pre post, Py.join sep l = pre ++ k ++ post.
Proof.
  induction l as [|x [|y l] IH]; intros H; [destruct H | |].
  - destruct H as [->|[]]. exists "", "".
    change (k = k ++ ""). now rewrite append_nil_r.
  - rewrite join_cons. destruct H as [->|H].
    + now exists "", (sep ++ Py.join sep (y :: l)).
    + destruct (IH H) as (pre & post & ->).
      exists (x ++ sep ++ pre), post. now rewrite !append_assoc.
Qed.

End PyFacts.

(** * Facts about the delimited-pairs parser *)



Section LatLonFacts.

Variable py_float : string -> option float.


Lemma parse_latlon_no_comma (i : nat) (loc : string) :
  ~ has_char "," loc ->
  parse_latlon py_float i loc
  = Raise (ClientError
             ("Unable to parse location '" ++ loc ++ "' in position "
                ++ Py.str_of_int (Z.of_nat i + 1)
                ++ ". Add locations like lat1,lon1|lat2,lon2.")).
Proof.
  intros H. apply PyFacts.str_in_char_false in H.
  unfold parse_latlon. rewrite H. reflexivity.
Qed.

Lemma parse_latlon_comma (i : nat) (a b : string) :
  ~ has_char "," a ->
  parse_latlon py_float i (a ++ String "," b)
  = match py_float a, py_float b with
    | Some lat, Some lon =>
        if negb (lat_in_range lat) then
          Raise (ClientError
                   ("Unable to parse location '" ++ (a ++ String "," b)
                      ++ "' in position " ++ Py.str_of_int (Z.of_nat i + 1)
                      ++ ". Latitude must be between -90 and 90."
                      ++ " Provide locations in lat,lon order."))
        else if negb (lon_in_range lon) then
          Raise (ClientError
                   ("Unable to parse location '" ++ (a ++ String "," b)
                      ++ "' in position " ++ Py.str_of_int (Z.of_nat i + 1)
                      ++ ". Longitude must be between -180 and 180."))
        else Ok (lat, lon)
    | _, _ =>
        Raise (ClientError
                 ("Unable to parse location '" ++ (a ++ String "," b)
                    ++ "' in position " ++ Py.str_of_int (Z.of_nat i + 1) ++ "."))
    end.
Proof.
  intros Ha. unfold parse_latlon.
  assert (Hin : Py.str_in "," (a ++ String "," b) = true).
  { apply PyFacts.str_in_char, PyFacts.has_char_app. right. now left. }
  rewrite Hin, PyFacts.split1_app_sep by assumption. cbn [negb Py.getitem nth_error bind].
  destruct (py_float a) as [lat|], (py_float b) as [lon|]; reflexivity.
Qed.

Lemma parse_latlon_ok (i : nat) (loc : string) (v : float * float) :
  parse_latlon py_float i loc = Ok v <-> reads_as py_float loc v.
Proof.
  split.
  - intros H. destruct (Py.str_in "," loc) eqn:Hin.
    + apply PyFacts.str_in_char, PyFacts.has_char_split in Hin.
      destruct Hin as (a & b & -> & Ha).
      rewrite parse_latlon_comma in H by assumption.
      exists a, b.
      destruct (py_float a) as [lat|], (py_float b) as [lon|]; try discriminate.
      destruct (lat_in_range lat) eqn:Hlat; [|discriminate].
      destruct (lon_in_range lon) eqn:Hlon; [|discriminate].
      cbn in H. injection H as <-. cbn. tauto.
    + apply PyFacts.str_in_char_false in Hin.
      rewrite parse_latlon_no_comma in H by assumption. discriminate.
  - intros (a & b & -> & Ha & Hfa & Hfb & Hlat & Hlon).
    rewrite parse_latlon_comma, Hfa, Hfb, Hlat, Hlon by assumption.
    cbn. now destruct v.
Qed.

Lemma parse_latlon_raises (i : nat) (loc : string) (e : exn) :
  parse_latlon py_float i loc = Raise e -> exists msg, e = ClientError msg.
Proof.
  intros H. destruct (Py.str_in "," loc) eqn:Hin.
  - apply PyFacts.str_in_char, PyFacts.has_char_split in Hin.
    destruct Hin as (a & b & -> & Ha).
    rewrite parse_latlon_comma in H by assumption.
    destruct (py_float a) as [lat|], (py_float b) as [lon|];
      try (injection H as <-; eauto).
    destruct (lat_in_range lat); cbn in H; [|injection H as <-; eauto].
    destruct (lon_in_range lon); cbn in H; [discriminate|injection H as <-; eauto].
  - apply PyFacts.str_in_char_false in Hin.
    rewrite parse_latlon_no_comma in H by assumption. injection H as <-; eauto.
Qed.

(** The loop over segments that all read as points. *)
Lemma parse_each_app (locs rest : list string) (vals : list (float * float)) :
  Forall2 (reads_as py_float) locs vals ->
  forall (i : nat) (lats lons : list float),
    parse_each py_float i (locs ++ rest)%list lats lons
    = parse_each py_float (i + List.length locs) rest
        (lats ++ map fst vals)%list (lons ++ map snd vals)%list.
Proof.
  induction 1 as [|loc v locs vals Hv _ IH]; intros i lats lons.
  - cbn. now rewrite Nat.add_0_r, !app_nil_r.
  - cbn [app parse_each]. apply (parse_latlon_ok i) in Hv. rewrite Hv.
    cbn [bind]. rewrite IH. cbn [List.length map].
    rewrite <- !app_assoc. cbn [app]. f_equal. lia.
Qed.

Lemma parse_each_ok (locs : list string) :
  forall (i : nat) (lats lons l1 l2 : list float),
    parse_each py_float i locs lats lons = Ok (l1, l2) ->
    exists vals,
      Forall2 (reads_as py_float) locs vals /\
      l1 = (lats ++ map fst vals)%list /\ l2 = (lons ++ map snd vals)%list.
Proof.
  induction locs as [|loc locs IH]; intros i lats lons l1 l2 H.
  - cbn in H. injection H as <- <-. exists []. rewrite !app_nil_r. auto.
  - cbn [parse_each] in H. destruct (parse_latlon py_float i loc) as [v|e] eqn:Hv;
      [|discriminate].
    cbn [bind] in H. apply IH in H. destruct H as (vals & Hvals & -> & ->).
    apply parse_latlon_ok in Hv.
    exists (v :: vals). rewrite <- !app_assoc. cbn. auto.
Qed.

Lemma parse_each_raises (locs : list string) :
  forall (i : nat) (lats lons : list float) (e : exn),
    parse_each py_float i locs lats lons = Raise e ->
    exists msg, e = ClientError msg.
Proof.
  induction locs as [|loc locs IH]; intros i lats lons e H.
  - discriminate.
  - cbn [parse_each] in H. destruct (parse_latlon py_float i loc) as [v|e'] eqn:Hv.
    + cbn [bind] in H. eauto.
    + cbn [bind] in H. injection H as <-. eauto using parse_latlon_raises.
Qed.

(** The first segment that does not read as a point decides the error. *)
Lemma parse_each_first_error (pre post : list string) (loc : string)
    (vals : list (float * float)) (e : exn) :
  Forall2 (reads_as py_float) pre vals ->
  parse_latlon py_float (List.length pre) loc = Raise e ->
  parse_each py_float 0 (pre ++ loc :: post)%list [] [] = Raise e.
Proof.
  intros Hpre He. rewrite (parse_each_app _ _ _ Hpre). cbn [parse_each Nat.add].
  now rewrite He.
Qed.

End LatLonFacts.

(** * Facts about the batch parser *)


Section BatchFacts.

Variable py_float : string -> option float.
Variable polyline_decode : string -> option (list (float * float)).

Lemma polyline_body_enc (body : string) : polyline_body ("enc:" ++ body) = body.
Proof. now destruct body. Qed.

Lemma polyline_body_plain (raw : string) :
  String.prefix "enc:" raw = false -> polyline_body raw = raw.
Proof. unfold polyline_body. now intros ->. Qed.

Lemma parse_polyline_unfold (raw : string) (max_n : Z) :
  _parse_polyline_locations polyline_decode raw max_n
  = match polyline_decode (polyline_body raw) with
    | None => Raise (ClientError "Unable to parse locations as polyline.")
    | Some pts =>
        if max_n <? Z.of_nat (List.length pts) then
          Raise (ClientError
                   ("Too many locations provided ("
                      ++ Py.str_of_int (Z.of_nat (List.length pts))
                      ++ "), the limit is " ++ Py.str_of_int max_n ++ "."))
        else Ok (map fst pts, map snd pts)
    end.
Proof.
  unfold _parse_polyline_locations, polyline_body.
  assert (E : negb (String.eqb raw "") && String.prefix "enc:" raw
              = String.prefix "enc:" raw) by now destruct raw.
  rewrite E. destruct (polyline_decode _) as [pts|]; [|reflexivity].
  rewrite length_map, Z.gtb_ltb. reflexivity.
Qed.

Lemma parse_locations_comma (raw : string) (max_n : Z) :
  has_char "," raw ->
  _parse_locations py_float polyline_decode (Some raw) max_n
  = _parse_latlon_locations py_float raw max_n.
Proof.
  intros H. unfold _parse_locations.
  assert (Py.falsy (Some raw) = false) as -> by (destruct raw; [destruct H | reflexivity]).
  apply PyFacts.str_in_char in H. change (default "" (Some raw)) with raw.
  now rewrite H.
Qed.

Lemma parse_locations_no_comma (raw : string) (max_n : Z) :
  raw <> "" -> ~ has_char "," raw ->
  _parse_locations py_float polyline_decode (Some raw) max_n
  = _parse_polyline_locations polyline_decode raw max_n.
Proof.
  intros Hne H. unfold _parse_locations.
  assert (Py.falsy (Some raw) = false) as -> by (destruct raw; [congruence | reflexivity]).
  apply PyFacts.str_in_char_false in H. change (default "" (Some raw)) with raw.
  now rewrite H.
Qed.

Lemma parse_locations_empty (raw : option string) (max_n : Z) :
  raw = None \/ raw = Some "" ->
  _parse_locations py_float polyline_decode raw max_n
  = Raise (ClientError
             "No locations provided. Add locations in a query string: ?locations=lat1,lon1|lat2,lon2.").
Proof. intros [->| ->]; reflexivity. Qed.

Lemma parse_latlon_within (raw : string) (max_n : Z) :
  Z.of_nat (List.length (Py.split "|" (Py.strip "|" raw))) <= max_n ->
  _parse_latlon_locations py_float raw max_n
  = parse_each py_float 0 (Py.split "|" (Py.strip "|" raw)) [] [].
Proof.
  intros H. unfold _parse_latlon_locations.
  destruct (Z.gtb_spec (Z.of_nat (List.length (Py.split "|" (Py.strip "|" raw)))) max_n);
    [lia | reflexivity].
Qed.

Lemma parse_latlon_too_many (raw : string) (max_n : Z) :
  max_n < Z.of_nat (List.length (Py.split "|" (Py.strip "|" raw))) ->
  _parse_latlon_locations py_float raw max_n
  = Raise (ClientError
             ("Too many locations provided ("
                ++ Py.str_of_int (Z.of_nat (List.length (Py.split "|" (Py.strip "|" raw))))
                ++ "), the limit is " ++ Py.str_of_int max_n ++ ".")).
Proof.
  intros H. unfold _parse_latlon_locations.
  destruct (Z.gtb_spec (Z.of_nat (List.length (Py.split "|" (Py.strip "|" raw)))) max_n);
    [reflexivity | lia].
Qed.

(** A successful delimited parse: as many points as segments, each the
    reading of its segment. *)
Lemma parse_latlon_locations_ok (raw : string) (max_n : Z) (lats lons : list float) :
  _parse_latlon_locations py_float raw max_n = Ok (lats, lons) ->
  exists vals,
    Forall2 (reads_as py_float) (Py.split "|" (Py.strip "|" raw)) vals /\
    lats = map fst vals /\ lons = map snd vals /\
    Z.of_nat (List.length vals) <= max_n.
Proof.
  intros H.
  destruct (Z.lt_ge_cases max_n (Z.of_nat (List.length (Py.split "|" (Py.strip "|" raw)))))
    as [Hlt|Hge].
  - rewrite parse_latlon_too_many in H by assumption. discriminate.
  - rewrite parse_latlon_within in H by assumption.
    apply parse_each_ok in H. destruct H as (vals & Hvals & -> & ->).
    exists vals. repeat split; try assumption.
    now rewrite <- (Forall2_length Hvals).
Qed.

Lemma combine_fst_snd {A B : Type} (l : list (A * B)) :
  combine (map fst l) (map snd l) = l.
Proof. induction l as [|[a b] l IH]; cbn; congruence. Qed.

End BatchFacts.

(** * Facts about the polyline codec *)

Module PolylineFacts.
Import Polyline.

(** [_trans] reads at least one character. *)
Lemma trans_shorter (value : string) :
  forall (result shift n : Z) (rest : string),
    _trans value result shift = Some (n, rest) ->
    (String.length rest < String.length value)%nat.
Proof.
  induction value as [|ch value IH]; intros result shift n rest H; [discriminate|].
  cbn [_trans] in H. cbv zeta in H.
  destruct (Z.of_N (N_of_ascii ch) - 63 >=? 32).
  - apply IH in H. cbn [String.length]. lia.
  - destruct (Z.land _ 1 =? 0); injection H as _ <-; cbn [String.length]; lia.
Qed.

(** With at least the length of the string as fuel, the fuel does not count:
    the loop of [decode] ends because the string does. *)
Lemma decode_loop_fuel (fuel1 : nat) :
  forall (fuel2 : nat) (expression : string) (lat lng : Z) (coordinates : list (float * float)),
    (String.length expression <= fuel1)%nat ->
    (String.length expression <= fuel2)%nat ->
    decode_loop fuel1 expression lat lng coordinates
    = decode_loop fuel2 expression lat lng coordinates.
Proof.
  induction fuel1 as [|fuel1 IH]; intros fuel2 expression lat lng coordinates H1 H2.
  - destruct expression; [now destruct fuel2 | cbn in H1; lia].
  - destruct expression as [|ch s]; [now destruct fuel2|].
    destruct fuel2 as [|fuel2]; [cbn in H2; lia|].
    cbn [decode_loop].
    destruct (_trans (String ch s) 0 0) as [[lat_change e1]|] eqn:T1; [|reflexivity].
    destruct (_trans e1 0 0) as [[lng_change e2]|] eqn:T2; [|reflexivity].
    apply trans_shorter in T1, T2.
    destruct (float_of_int (lat + lat_change)), (float_of_int (lng + lng_change));
      try reflexivity.
    apply IH; lia.
Qed.

(** The loop only appends, and appends at least one point to a string that is
    not empty. *)
Lemma decode_loop_appends (fuel : nat) :
  forall (expression : string) (lat lng : Z) (coordinates out : list (float * float)),
    decode_loop fuel expression lat lng coordinates = Some out ->
    exists more,
      out = (coordinates ++ more)%list /\ (expression <> "" -> more <> []).
Proof.
  induction fuel as [|fuel IH]; intros expression lat lng coordinates out H.
  - destruct expression; [|discriminate]. injection H as <-.
    exists []. rewrite app_nil_r. auto.
  - destruct expression as [|ch s].
    + injection H as <-. exists []. rewrite app_nil_r. auto.
    + cbn [decode_loop] in H.
      destruct (_trans (String ch s) 0 0) as [[lat_change e1]|]; [|discriminate].
      destruct (_trans e1 0 0) as [[lng_change e2]|]; [|discriminate].
      destruct (float_of_int (lat + lat_change)) as [x|]; [|discriminate].
      destruct (float_of_int (lng + lng_change)) as [y|]; [|discriminate].
      apply IH in H. destruct H as (more & -> & _).
      eexists. rewrite <- app_assoc. split; [reflexivity|].
      intros _. discriminate.
Qed.

(** Only the empty string decodes to no point at all. *)
Lemma decode_nil (expression : string) :
  decode expression = Some [] -> expression = "".
Proof.
  unfold decode. intros H. apply decode_loop_appends in H.
  destruct H as (more & Hout & Hmore). cbn in Hout. subst more.
  destruct expression; [reflexivity|]. exfalso. now apply Hmore.
Qed.

Lemma decode_empty : decode "" = Some [].
Proof. reflexivity. Qed.

End PolylineFacts.

(** * The Location Batch Parser *)

Section BatchParser.

Variable py_float : string -> option float.
Variable polyline_decode : string -> option (list (float * float)).

Lemma polyline_body_empty (raw : string) :
  polyline_body raw = "" -> raw = "" \/ raw = "enc:".
Proof.
  unfold polyline_body.
  destruct raw as [|a raw]; [auto|]. rewrite PyFacts.prefix_cons.
  destruct (Ascii.eqb_spec "e" a) as [<-|]; [|discriminate].
  destruct raw as [|b raw]; [discriminate|]. rewrite PyFacts.prefix_cons.
  destruct (Ascii.eqb_spec "n" b) as [<-|]; [|discriminate].
  destruct raw as [|c raw]; [discriminate|]. rewrite PyFacts.prefix_cons.
  destruct (Ascii.eqb_spec "c" c) as [<-|]; [|discriminate].
  destruct raw as [|d raw]; [discriminate|]. rewrite PyFacts.prefix_cons.
  destruct (Ascii.eqb_spec ":" d) as [<-|]; [|discriminate].
  destruct raw; [auto | discriminate].
Qed.

(** C7: for every non-empty raw locations string the dispatch depends on the
    presence of a comma alone: a string with a comma is parsed by
    [_parse_latlon_locations], a string without one by
    [_parse_polyline_locations], whatever [float()], the decoder and the
    limit are. *)
Theorem parse_locations_dispatch (raw : string) (max_n : Z) :
  raw <> "" ->
  (has_char "," raw ->
   _parse_locations py_float polyline_decode (Some raw) max_n
   = _parse_latlon_locations py_float raw max_n) /\
  (~ has_char "," raw ->
   _parse_locations py_float polyline_decode (Some raw) max_n
   = _parse_polyline_locations polyline_decode raw max_n).
Proof.
  intros Hne. split; intros H.
  - now apply parse_locations_comma.
  - now apply parse_locations_no_comma.
Qed.

(** C4: in the delimited-pairs path the count of raw segments is compared
    with the limit before any segment is looked at: more segments than
    [max_n] raise the error that cites the count and the limit, whatever the
    segments hold; a count up to [max_n], so exactly [max_n] too, passes on to
    the loop, and segments that all read as points are then returned.  In the
    polyline path the decoded batch is checked the same way: more than
    [max_n] points raise the same message, up to [max_n] are returned. *)
Theorem size_check (raw : string) (max_n : Z) :
  (max_n < Z.of_nat (List.length (Py.split "|" (Py.strip "|" raw))) ->
   _parse_latlon_locations py_float raw max_n
   = Raise (ClientError
              ("Too many locations provided ("
                 ++ Py.str_of_int (Z.of_nat (List.length (Py.split "|" (Py.strip "|" raw))))
                 ++ "), the limit is " ++ Py.str_of_int max_n ++ "."))) /\
  (Z.of_nat (List.length (Py.split "|" (Py.strip "|" raw))) <= max_n ->
   _parse_latlon_locations py_float raw max_n
   = parse_each py_float 0 (Py.split "|" (Py.strip "|" raw)) [] [] /\
   forall vals,
     Forall2 (reads_as py_float) (Py.split "|" (Py.strip "|" raw)) vals ->
     _parse_latlon_locations py_float raw max_n = Ok (map fst vals, map snd vals)) /\
  (forall pts,
     polyline_decode (polyline_body raw) = Some pts ->
     (max_n < Z.of_nat (List.length pts) ->
      _parse_polyline_locations polyline_decode raw max_n
      = Raise (ClientError
                 ("Too many locations provided ("
                    ++ Py.str_of_int (Z.of_nat (List.length pts))
                    ++ "), the limit is " ++ Py.str_of_int max_n ++ "."))) /\
     (Z.of_nat (List.length pts) <= max_n ->
      _parse_polyline_locations polyline_decode raw max_n
      = Ok (map fst pts, map snd pts))).
Proof.
  split; [|split].
  - apply parse_latlon_too_many.
  - intros H. rewrite parse_latlon_within by assumption. split; [reflexivity|].
    intros vals Hvals.
    pose proof (parse_each_app py_float _ [] _ Hvals 0%nat [] []) as E.
    rewrite app_nil_r in E. rewrite E. reflexivity.
  - intros pts Hpts. rewrite parse_polyline_unfold, Hpts.
    split; intros H.
    + apply Z.ltb_lt in H. now rewrite H.
    + apply Z.ltb_ge in H. now rewrite H.
Qed.

(** C10: a successful parse returns two lists of one length whose entries at
    one index come from one input point: in the delimited-pairs path the
    pairs [(lats[i], lons[i])] are the readings of the segments, in their
    order; in the polyline path they are the decoded points, in theirs. *)
Theorem parse_locations_parallel (raw : option string) (max_n : Z)
    (lats lons : list float) :
  _parse_locations py_float polyline_decode raw max_n = Ok (lats, lons) ->
  List.length lats = List.length lons /\
  exists s,
    raw = Some s /\
    ((has_char "," s /\
      Forall2 (reads_as py_float) (Py.split "|" (Py.strip "|" s)) (combine lats lons))
     \/
     (~ has_char "," s /\
      polyline_decode (polyline_body s) = Some (combine lats lons))).
Proof.
  intros H. destruct raw as [s|]; [|discriminate].
  destruct s as [|a s]; [discriminate|].
  set (raw := String a s) in *.
  destruct (Py.str_in "," raw) eqn:Hin.
  - apply PyFacts.str_in_char in Hin.
    rewrite parse_locations_comma in H by assumption.
    apply parse_latlon_locations_ok in H. destruct H as (vals & Hvals & -> & -> & _).
    rewrite !length_map, combine_fst_snd. eauto 6.
  - apply PyFacts.str_in_char_false in Hin.
    rewrite parse_locations_no_comma in H by (assumption || discriminate).
    rewrite parse_polyline_unfold in H.
    destruct (polyline_decode (polyline_body raw)) as [pts|] eqn:Hpts; [|discriminate].
    destruct (max_n <? _); [discriminate|]. injection H as <- <-.
    rewrite !length_map, combine_fst_snd. eauto 6.
Qed.

(** X1: the bounds of a batch: apart from the one input [enc:], a successful
    parse returns at least one and at most [max_n] points, for every decoder
    that decodes nothing but the empty string to no point. *)
Theorem parse_locations_bounds (raw : option string) (max_n : Z)
    (lats lons : list float) :
  (forall s, polyline_decode s = Some [] -> s = "") ->
  raw <> Some "enc:" ->
  _parse_locations py_float polyline_decode raw max_n = Ok (lats, lons) ->
  1 <= Z.of_nat (List.length lats) <= max_n /\
  List.length lons = List.length lats.
Proof.
  intros Hdec Hraw H. destruct raw as [s|]; [|discriminate].
  destruct s as [|a s]; [discriminate|].
  set (raw := String a s) in *.
  destruct (Py.str_in "," raw) eqn:Hin.
  - apply PyFacts.str_in_char in Hin.
    rewrite parse_locations_comma in H by assumption.
    apply parse_latlon_locations_ok in H. destruct H as (vals & Hvals & -> & -> & Hn).
    rewrite !length_map. pose proof (PyFacts.split_length "|" (Py.strip "|" raw)).
    rewrite (Forall2_length Hvals) in *. lia.
  - apply PyFacts.str_in_char_false in Hin.
    rewrite parse_locations_no_comma in H by (assumption || discriminate).
    rewrite parse_polyline_unfold in H.
    destruct (polyline_decode (polyline_body raw)) as [pts|] eqn:Hpts; [|discriminate].
    destruct (Z.ltb_spec max_n (Z.of_nat (List.length pts))); [discriminate|].
    injection H as <- <-. rewrite !length_map.
    destruct pts as [|p pts]; [|cbn [List.length] in *; lia].
    apply Hdec, polyline_body_empty in Hpts.
    destruct Hpts as [E|E]; [discriminate E | congruence].
Qed.

End BatchParser.

(** * The two sub-parsers *)


Ltac no_char := apply PyFacts.str_in_char_false; reflexivity.
Ltac some_char := apply PyFacts.str_in_char; reflexivity.

Section SubParsers.

Variable py_float : string -> option float.
Variable polyline_decode : string -> option (list (float * float)).



Lemma written_reads (pairs : list (string * string)) (vals : list (float * float)) :
  Forall2 (written_as py_float) pairs vals ->
  Forall2 (reads_as py_float) (map (fun p => fst p ++ "," ++ snd p) pairs) vals /\
  Forall (fun s => s <> "" /\ ~ has_char "|" s) (map (fun p => fst p ++ "," ++ snd p) pairs).
Proof.
  induction 1 as [|p v pairs vals Hp _ [IH1 IH2]]; [split; constructor|].
  destruct Hp as (Hc & Hb1 & Hb2 & Hf1 & Hf2 & Hr1 & Hr2).
  split; constructor; try assumption.
  - exists (fst p), (snd p). repeat split; assumption.
  - split.
    + destruct (fst p); discriminate.
    + change (fst p ++ "," ++ snd p) with (fst p ++ String "," (snd p)).
      rewrite PyFacts.has_char_app, PyFacts.has_char_cons.
      intros [?|[?|?]]; [tauto | discriminate | tauto].
Qed.

Lemma parse_delimited (pairs : list (string * string)) (vals : list (float * float))
    (max_n : Z) :
  pairs <> [] -> Z.of_nat (List.length pairs) <= max_n ->
  Forall2 (written_as py_float) pairs vals ->
  _parse_locations py_float polyline_decode (Some (delimited pairs)) max_n
  = Ok (map fst vals, map snd vals).
Proof.
  intros Hne Hn Hw. destruct (written_reads _ _ Hw) as [Hr Hs].
  set (segs := map (fun p => fst p ++ "," ++ snd p) pairs) in *.
  assert (Hsegs : segs <> []) by (subst segs; destruct pairs; [congruence | discriminate]).
  assert (Hsplit : Py.split "|" (Py.strip "|" (delimited pairs)) = segs).
  { unfold delimited. fold segs. rewrite PyFacts.strip_join by assumption.
    apply PyFacts.split_join; [assumption|].
    eapply Forall_impl; [|exact Hs]. cbn. tauto. }
  rewrite parse_locations_comma.
  - rewrite parse_latlon_within; rewrite Hsplit.
    + pose proof (parse_each_app py_float _ [] _ Hr 0%nat [] []) as E.
      rewrite app_nil_r in E. now rewrite E.
    + subst segs. now rewrite length_map.
  - unfold delimited. fold segs. destruct pairs as [|p pairs]; [congruence|].
    subst segs. cbn [map].
    assert (Hp : has_char "," (fst p ++ "," ++ snd p)).
    { change (fst p ++ "," ++ snd p) with (fst p ++ String "," (snd p)).
      apply PyFacts.has_char_app. right. now left. }
    destruct (map _ pairs) as [|y l]; [exact Hp|].
    rewrite PyFacts.join_cons, <- PyFacts.append_assoc.
    apply PyFacts.has_char_app. left. apply PyFacts.has_char_app. now left.
Qed.

(** C6: a batch [lat1,lon1|...|latN,lonN] of N >= 1 pairs, N within the
    limit, whose texts are numeric and in range, parses to exactly the N
    points [float()] reads, in the order of the segments; a segment is cut at
    its first comma (the longitude text is all that follows it); and a
    segment with no comma, reached after segments that all read as points,
    raises the format error that names the segment and its 1-based
    position. *)
Theorem delimited_pairs (max_n : Z) :
  (forall (pairs : list (string * string)) (vals : list (float * float)),
     pairs <> [] -> Z.of_nat (List.length pairs) <= max_n ->
     Forall2 (written_as py_float) pairs vals ->
     _parse_locations py_float polyline_decode (Some (delimited pairs)) max_n
     = Ok (map fst vals, map snd vals) /\
     List.length (map fst vals) = List.length pairs) /\
  (forall (i : nat) (a b : string),
     ~ has_char "," a ->
     forall v, parse_latlon py_float i (a ++ "," ++ b) = Ok v ->
               py_float a = Some (fst v) /\ py_float b = Some (snd v)) /\
  (forall (raw : string) (pre post : list string) (prev : list (float * float))
          (loc : string),
     Py.split "|" (Py.strip "|" raw) = (pre ++ loc :: post)%list ->
     Z.of_nat (List.length (pre ++ loc :: post)) <= max_n ->
     Forall2 (reads_as py_float) pre prev ->
     ~ has_char "," loc ->
     _parse_latlon_locations py_float raw max_n
     = Raise (ClientError
                ("Unable to parse location '" ++ loc ++ "' in position "
                   ++ Py.str_of_int (Z.of_nat (List.length pre) + 1)
                   ++ ". Add locations like lat1,lon1|lat2,lon2."))).
Proof.
  split; [|split].
  - intros pairs vals Hne Hn Hw. split; [now apply parse_delimited|].
    rewrite length_map. symmetry. exact (Forall2_length Hw).
  - intros i a b Ha v H.
    change (a ++ "," ++ b) with (a ++ String "," b) in H.
    rewrite parse_latlon_comma in H by assumption.
    destruct (py_float a) as [lat|], (py_float b) as [lon|]; try discriminate.
    destruct (lat_in_range lat); [|discriminate].
    destruct (lon_in_range lon); [|discriminate].
    cbn in H. injection H as <-. auto.
  - intros raw pre post prev loc Hsplit Hn Hpre Hloc.
    rewrite parse_latlon_within; rewrite Hsplit; [|assumption].
    eapply parse_each_first_error; [eassumption|].
    now apply parse_latlon_no_comma.
Qed.

(** The error of the first segment that is out of range, by coordinate. *)
Lemma latitude_error_at (raw : string) (max_n : Z) (pre post : list string)
    (prev : list (float * float)) (a b : string) (lat lon : float) :
  Py.split "|" (Py.strip "|" raw) = (pre ++ (a ++ "," ++ b)%string :: post)%list ->
  Z.of_nat (List.length (pre ++ (a ++ "," ++ b)%string :: post)%list) <= max_n ->
  Forall2 (reads_as py_float) pre prev ->
  ~ has_char "," a -> py_float a = Some lat -> py_float b = Some lon ->
  lat_in_range lat = false ->
  _parse_latlon_locations py_float raw max_n
  = Raise (ClientError
             ("Unable to parse location '" ++ (a ++ "," ++ b) ++ "' in position "
                ++ Py.str_of_int (Z.of_nat (List.length pre) + 1)
                ++ ". Latitude must be between -90 and 90."
                ++ " Provide locations in lat,lon order.")).
Proof.
  intros Hsplit Hn Hpre Ha Hfa Hfb Hlat.
  rewrite parse_latlon_within; rewrite Hsplit; [|assumption].
  eapply parse_each_first_error; [eassumption|].
  change (a ++ "," ++ b) with (a ++ String "," b).
  rewrite parse_latlon_comma, Hfa, Hfb, Hlat by assumption. reflexivity.
Qed.

Lemma longitude_error_at (raw : string) (max_n : Z) (pre post : list string)
    (prev : list (float * float)) (a b : string) (lat lon : float) :
  Py.split "|" (Py.strip "|" raw) = (pre ++ (a ++ "," ++ b)%string :: post)%list ->
  Z.of_nat (List.length (pre ++ (a ++ "," ++ b)%string :: post)%list) <= max_n ->
  Forall2 (reads_as py_float) pre prev ->
  ~ has_char "," a -> py_float a = Some lat -> py_float b = Some lon ->
  lat_in_range lat = true -> lon_in_range lon = false ->
  _parse_latlon_locations py_float raw max_n
  = Raise (ClientError
             ("Unable to parse location '" ++ (a ++ "," ++ b) ++ "' in position "
                ++ Py.str_of_int (Z.of_nat (List.length pre) + 1)
                ++ ". Longitude must be between -180 and 180.")).
Proof.
  intros Hsplit Hn Hpre Ha Hfa Hfb Hlat Hlon.
  rewrite parse_latlon_within; rewrite Hsplit; [|assumption].
  eapply parse_each_first_error; [eassumption|].
  change (a ++ "," ++ b) with (a ++ String "," b).
  rewrite parse_latlon_comma, Hfa, Hfb, Hlat, Hlon by assumption. reflexivity.
Qed.

(** C2 (as amended): in the delimited-pairs path, when the segment count is
    within the limit and the segments before [a,b] all read as points, a
    latitude outside [-90, 90] raises an error that names the segment, its
    1-based position, the latitude bounds and the hint that the order is
    lat,lon; a latitude in range with a longitude outside [-180, 180] raises
    an error that names the segment, its position and the longitude bounds,
    and carries no hint on the order. *)
Theorem out_of_range_error (raw : string) (max_n : Z) (pre post : list string)
    (prev : list (float * float)) (a b : string) (lat lon : float) :
  Py.split "|" (Py.strip "|" raw) = (pre ++ (a ++ "," ++ b)%string :: post)%list ->
  Z.of_nat (List.length (pre ++ (a ++ "," ++ b)%string :: post)%list) <= max_n ->
  Forall2 (reads_as py_float) pre prev ->
  ~ has_char "," a -> py_float a = Some lat -> py_float b = Some lon ->
  (lat_in_range lat = false ->
   exists msg,
     _parse_latlon_locations py_float raw max_n = Raise (ClientError msg) /\
     msg = "Unable to parse location '" ++ (a ++ "," ++ b) ++ "' in position "
             ++ Py.str_of_int (Z.of_nat (List.length pre) + 1)
             ++ ". Latitude must be between -90 and 90."
             ++ " Provide locations in lat,lon order.") /\
  (lat_in_range lat = true -> lon_in_range lon = false ->
   exists msg,
     _parse_latlon_locations py_float raw max_n = Raise (ClientError msg) /\
     msg = "Unable to parse location '" ++ (a ++ "," ++ b) ++ "' in position "
             ++ Py.str_of_int (Z.of_nat (List.length pre) + 1)
             ++ ". Longitude must be between -180 and 180.").
Proof.
  intros Hsplit Hn Hpre Ha Hfa Hfb. split.
  - intros Hlat. eexists. split; [|reflexivity].
    eapply latitude_error_at; eassumption.
  - intros Hlat Hlon. eexists. split; [|reflexivity].
    eapply longitude_error_at; eassumption.
Qed.

(** C3: [_parse_polyline_locations] drops one leading [enc:] when there is
    one and decodes what is left, [body]; a failure of the decoder is the one
    error with the fixed message, with no position in it; after a successful
    decode the size check is the only check, so the decoded points are
    returned as they are, in range or not. *)
Theorem polyline_path (raw body : string) (max_n : Z) :
  raw = "enc:" ++ body \/ (String.prefix "enc:" raw = false /\ body = raw) ->
  _parse_polyline_locations polyline_decode raw max_n
  = match polyline_decode body with
    | None => Raise (ClientError "Unable to parse locations as polyline.")
    | Some pts =>
        if max_n <? Z.of_nat (List.length pts) then
          Raise (ClientError
                   ("Too many locations provided ("
                      ++ Py.str_of_int (Z.of_nat (List.length pts))
                      ++ "), the limit is " ++ Py.str_of_int max_n ++ "."))
        else Ok (map fst pts, map snd pts)
    end.
Proof.
  intros H. rewrite parse_polyline_unfold.
  assert (polyline_body raw = body) as ->; [|reflexivity].
  destruct H as [->|[H ->]].
  - apply polyline_body_enc.
  - now apply polyline_body_plain.
Qed.

(** C5: the bounds are inclusive.  For every [float()] that reads the
    literals below as Python does, latitudes 90.0 and -90.0 with longitudes
    180.0 and -180.0 are accepted, latitude 90.0001 is rejected with the
    latitude message, longitude 180.1 with the longitude message, and
    [200,50] with the latitude message, not the longitude one. *)
Theorem inclusive_bounds (max_n : Z) :
  2 <= max_n ->
  py_float "90.0" = Some 90%float -> py_float "-90.0" = Some (-90)%float ->
  py_float "180.0" = Some 180%float -> py_float "-180.0" = Some (-180)%float ->
  py_float "90.0001" = Some f90_0001 -> py_float "180.1" = Some f180_1 ->
  py_float "0" = Some 0%float ->
  py_float "200" = Some 200%float -> py_float "50" = Some 50%float ->
  _parse_locations py_float polyline_decode (Some "90.0,180.0|-90.0,-180.0") max_n
  = Ok ([90%float; (-90)%float], [180%float; (-180)%float]) /\
  _parse_locations py_float polyline_decode (Some "90.0001,0") max_n
  = Raise (ClientError
             "Unable to parse location '90.0001,0' in position 1. Latitude must be between -90 and 90. Provide locations in lat,lon order.") /\
  _parse_locations py_float polyline_decode (Some "0,180.1") max_n
  = Raise (ClientError
             "Unable to parse location '0,180.1' in position 1. Longitude must be between -180 and 180.") /\
  _parse_locations py_float polyline_decode (Some "200,50") max_n
  = Raise (ClientError
             "Unable to parse location '200,50' in position 1. Latitude must be between -90 and 90. Provide locations in lat,lon order.").
Proof.
  intros Hn H90 Hm90 H180 Hm180 H91 H181 H0 H200 H50.
  repeat split.
  - apply (parse_delimited [("90.0", "180.0"); ("-90.0", "-180.0")]
             [(90%float, 180%float); ((-90)%float, (-180)%float)]);
      [discriminate | cbn; lia |].
    repeat constructor; cbn [fst snd]; try assumption; try no_char;
      vm_compute; reflexivity.
  - rewrite parse_locations_comma by some_char.
    refine (latitude_error_at "90.0001,0" max_n [] [] [] "90.0001" "0"
              f90_0001 0%float _ _ _ _ H91 H0 _);
      try reflexivity; try no_char; [cbn; lia | constructor].
  - rewrite parse_locations_comma by some_char.
    refine (longitude_error_at "0,180.1" max_n [] [] [] "0" "180.1"
              0%float f180_1 _ _ _ _ H0 H181 _ _);
      try reflexivity; try no_char; [cbn; lia | constructor].
  - rewrite parse_locations_comma by some_char.
    refine (latitude_error_at "200,50" max_n [] [] [] "200" "50"
              200%float 50%float _ _ _ _ H200 H50 _);
      try reflexivity; try no_char; [cbn; lia | constructor].
Qed.

(** C1 (where the code departs from the claim): the raw string [enc:] is not
    empty and holds no comma, so it takes the polyline path; what is left
    after the prefix is the empty string, and with a decoder that decodes the
    empty string to no point, as [polyline.decode] does, the parse succeeds
    with an empty batch. *)
Theorem enc_alone_gives_empty_batch (max_n : Z) :
  0 <= max_n ->
  polyline_decode "" = Some [] ->
  _parse_locations py_float polyline_decode (Some "enc:") max_n = Ok ([], []).
Proof.
  intros H Hdec. rewrite parse_locations_no_comma by (discriminate || no_char).
  rewrite parse_polyline_unfold.
  change (polyline_body "enc:") with "". rewrite Hdec.
  cbn [List.length map]. destruct (Z.ltb_spec max_n (Z.of_nat 0)); [lia | reflexivity].
Qed.

End SubParsers.

(** * The parsers at concrete inputs *)

Ltac reads := apply (parse_latlon_ok _ 0%nat); vm_compute; reflexivity.

(** C7 at two inputs: [-10,120] goes to the delimited-pairs parser and the
    comma-free [_p~iF~ps|U] to the polyline parser. *)
Lemma parse_locations_dispatch_witness :
  ("-10,120" <> "" /\ has_char "," "-10,120" /\
   _parse_locations Decimal.float_of_decimal Polyline.decode (Some "-10,120") 100
   = _parse_latlon_locations Decimal.float_of_decimal "-10,120" 100) /\
  ("_p~iF~ps|U" <> "" /\ ~ has_char "," "_p~iF~ps|U" /\
   _parse_locations Decimal.float_of_decimal Polyline.decode (Some "_p~iF~ps|U") 100
   = _parse_polyline_locations Polyline.decode "_p~iF~ps|U" 100).
Proof.
  split; (split; [discriminate|]).
  - split; [some_char|].
    apply (parse_locations_dispatch Decimal.float_of_decimal Polyline.decode "-10,120" 100);
      [discriminate | some_char].
  - split; [no_char|].
    apply (parse_locations_dispatch Decimal.float_of_decimal Polyline.decode "_p~iF~ps|U" 100);
      [discriminate | no_char].
Defined.

(** C4 at concrete inputs: two segments against the limits 1 and 2, and three
    decoded points against the limits 2 and 3. *)
Lemma size_check_witness :
  _parse_latlon_locations Decimal.float_of_decimal "1,2|3,4" 1
  = Raise (ClientError "Too many locations provided (2), the limit is 1.") /\
  _parse_latlon_locations Decimal.float_of_decimal "1,2|3,4" 2
  = Ok ([1%float; 3%float], [2%float; 4%float]) /\
  _parse_polyline_locations Polyline.decode "_p~iF~ps|U_ulLnnqC_mqNvxq`@" 2
  = Raise (ClientError "Too many locations provided (3), the limit is 2.") /\
  List.length (fst (match _parse_polyline_locations Polyline.decode
                            "_p~iF~ps|U_ulLnnqC_mqNvxq`@" 3 with
                    | Ok batch => batch
                    | Raise _ => ([], [])
                    end)) = 3%nat.
Proof.
  split; [|split; [|split]].
  - apply (proj1 (size_check Decimal.float_of_decimal Polyline.decode "1,2|3,4" 1)).
    vm_compute. reflexivity.
  - apply (proj2 (proj1 (proj2 (size_check Decimal.float_of_decimal Polyline.decode
                                  "1,2|3,4" 2))
                    ltac:(vm_compute; discriminate))
             [(1%float, 2%float); (3%float, 4%float)]).
    repeat constructor; reads.
  - apply (proj1 (proj2 (proj2 (size_check Decimal.float_of_decimal Polyline.decode
                                  "_p~iF~ps|U_ulLnnqC_mqNvxq`@" 2))
                    _ eq_refl)).
    vm_compute. reflexivity.
  - vm_compute. reflexivity.
Defined.

(** C10 at a concrete input. *)
Lemma parse_locations_parallel_witness :
  _parse_locations Decimal.float_of_decimal Polyline.decode (Some "-10,120|3.5,4") 100
  = Ok ([(-10)%float; 3.5%float], [120%float; 4%float]) /\
  List.length [(-10)%float; 3.5%float] = List.length [120%float; 4%float].
Proof.
  assert (H : _parse_locations Decimal.float_of_decimal Polyline.decode
                (Some "-10,120|3.5,4") 100
              = Ok ([(-10)%float; 3.5%float], [120%float; 4%float]))
    by (vm_compute; reflexivity).
  split; [exact H|].
  exact (proj1 (parse_locations_parallel Decimal.float_of_decimal Polyline.decode
                  _ _ _ _ H)).
Defined.

(** The bounds at a concrete input. *)
Lemma parse_locations_bounds_witness :
  1 <= Z.of_nat (List.length [(-10)%float; 3.5%float]) <= 100.
Proof.
  refine (proj1 (parse_locations_bounds Decimal.float_of_decimal Polyline.decode
                   (Some "-10,120|3.5,4") 100 [(-10)%float; 3.5%float]
                   [120%float; 4%float] PolylineFacts.decode_nil _ _)).
  - discriminate.
  - vm_compute. reflexivity.
Defined.

(** C6 at concrete inputs: two pairs, and the batch [40.7|-74.0,1] whose
    first segment has no comma. *)
Lemma delimited_pairs_witness :
  _parse_locations Decimal.float_of_decimal Polyline.decode (Some "-10,120|3.5,4") 100
  = Ok ([(-10)%float; 3.5%float], [120%float; 4%float]) /\
  _parse_latlon_locations Decimal.float_of_decimal "40.7|-74.0,1" 100
  = Raise (ClientError
             "Unable to parse location '40.7' in position 1. Add locations like lat1,lon1|lat2,lon2.").
Proof.
  split.
  - apply (proj1 (delimited_pairs Decimal.float_of_decimal Polyline.decode 100)
             [("-10", "120"); ("3.5", "4")]
             [((-10)%float, 120%float); (3.5%float, 4%float)]);
      [discriminate | vm_compute; discriminate |].
    repeat constructor; cbn [fst snd]; try no_char; vm_compute; reflexivity.
  - apply (proj2 (proj2 (delimited_pairs Decimal.float_of_decimal Polyline.decode 100))
             "40.7|-74.0,1" [] ["-74.0,1"] [] "40.7");
      [reflexivity | vm_compute; discriminate | constructor | no_char].
Defined.

(** C2, the amended statement at concrete inputs: the second segment of
    [1,1|95,0|0,200] has its latitude out of range, the only segment of
    [0,200] its longitude. *)
Lemma out_of_range_error_witness :
  _parse_latlon_locations Decimal.float_of_decimal "1,1|95,0|0,200" 10
  = Raise (ClientError
             "Unable to parse location '95,0' in position 2. Latitude must be between -90 and 90. Provide locations in lat,lon order.") /\
  _parse_latlon_locations Decimal.float_of_decimal "0,200" 10
  = Raise (ClientError
             "Unable to parse location '0,200' in position 1. Longitude must be between -180 and 180.").
Proof.
  split.
  - destruct (proj1 (out_of_range_error Decimal.float_of_decimal "1,1|95,0|0,200" 10
                       ["1,1"] ["0,200"] [(1%float, 1%float)] "95" "0" 95%float 0%float
                       ltac:(vm_compute; reflexivity) ltac:(vm_compute; discriminate)
                       ltac:(repeat constructor; reads) ltac:(no_char)
                       ltac:(vm_compute; reflexivity) ltac:(vm_compute; reflexivity))
                ltac:(vm_compute; reflexivity)) as (msg & H & ->).
    exact H.
  - destruct (proj2 (out_of_range_error Decimal.float_of_decimal "0,200" 10
                       [] [] [] "0" "200" 0%float 200%float
                       ltac:(vm_compute; reflexivity) ltac:(vm_compute; discriminate)
                       ltac:(constructor) ltac:(no_char)
                       ltac:(vm_compute; reflexivity) ltac:(vm_compute; reflexivity))
                ltac:(vm_compute; reflexivity) ltac:(vm_compute; reflexivity))
      as (msg & H & ->).
    exact H.
Defined.

(** C2, the claim as it was stated, at the input [0,200]: the longitude 200
    is outside [-180, 180], the error names the longitude bounds and the
    position, and nothing in the message says that the order is lat,lon. *)
Lemma longitude_error_carries_no_order_hint :
  Decimal.float_of_decimal "200" = Some 200%float /\
  lon_in_range 200 = false /\
  exists msg,
    _parse_locations Decimal.float_of_decimal Polyline.decode (Some "0,200") 100
    = Raise (ClientError msg) /\
    Py.str_in "Longitude must be between -180 and 180." msg = true /\
    Py.str_in "position 1" msg = true /\
    Py.str_in "lat,lon" msg = false /\ Py.str_in "order" msg = false.
Proof.
  split; [vm_compute; reflexivity|]. split; [vm_compute; reflexivity|].
  eexists. split; [vm_compute; reflexivity|]. repeat split; vm_compute; reflexivity.
Qed.

(** C3 at a concrete input: [_gjaR_ouce@] encodes the point (100.0, 200.0),
    out of range in both coordinates, and is returned. *)
Lemma polyline_path_witness :
  lat_in_range 100 = false /\ lon_in_range 200 = false /\
  _parse_polyline_locations Polyline.decode "enc:_gjaR_ouce@" 5
  = Ok ([100%float], [200%float]).
Proof.
  split; [vm_compute; reflexivity|]. split; [vm_compute; reflexivity|].
  rewrite (polyline_path Polyline.decode "enc:_gjaR_ouce@" "_gjaR_ouce@" 5
             (or_introl eq_refl)).
  vm_compute. reflexivity.
Defined.

(** C5 with the decimal reader in the place of [float()]; the message for
    [200,50] does not mention the longitude. *)
Lemma inclusive_bounds_witness :
  _parse_locations Decimal.float_of_decimal Polyline.decode
    (Some "90.0,180.0|-90.0,-180.0") 100
  = Ok ([90%float; (-90)%float], [180%float; (-180)%float]) /\
  _parse_locations Decimal.float_of_decimal Polyline.decode (Some "90.0001,0") 100
  = Raise (ClientError
             "Unable to parse location '90.0001,0' in position 1. Latitude must be between -90 and 90. Provide locations in lat,lon order.") /\
  _parse_locations Decimal.float_of_decimal Polyline.decode (Some "0,180.1") 100
  = Raise (ClientError
             "Unable to parse location '0,180.1' in position 1. Longitude must be between -180 and 180.") /\
  _parse_locations Decimal.float_of_decimal Polyline.decode (Some "200,50") 100
  = Raise (ClientError
             "Unable to parse location '200,50' in position 1. Latitude must be between -90 and 90. Provide locations in lat,lon order.") /\
  Py.str_in "Longitude"
    "Unable to parse location '200,50' in position 1. Latitude must be between -90 and 90. Provide locations in lat,lon order."
  = false.
Proof.
  pose proof (inclusive_bounds Decimal.float_of_decimal Polyline.decode 100) as H.
  destruct H as (H1 & H2 & H3 & H4); try (vm_compute; reflexivity).
  - vm_compute. discriminate.
  - split; [exact H1|]. split; [exact H2|]. split; [exact H3|]. split; [exact H4|].
    vm_compute. reflexivity.
Defined.

(** C1 at the limit 100, with the decoder of the polyline package. *)
Lemma enc_alone_gives_empty_batch_witness :
  Polyline.decode "" = Some [] /\
  _parse_locations Decimal.float_of_decimal Polyline.decode (Some "enc:") 100
  = Ok ([], []).
Proof.
  split; [reflexivity|].
  apply (enc_alone_gives_empty_batch Decimal.float_of_decimal Polyline.decode 100).
  - vm_compute. discriminate.
  - reflexivity.
Defined.


(** * Facts about the request handler *)

Section HandlerFacts.

Variable py_float : string -> option float.
Variable polyline_decode : string -> option (list (float * float)).
Variable Method : Type.
Variable Dataset : Type.
Variable INTERPOLATION_METHODS : list (string * Method).
Variable _load_config : result config.
Variable _load_datasets : result (gmap string Dataset).
Variable backend_get_elevation :
  list float -> list float -> Dataset -> string -> result (list (option float)).
Variable debug : bool.

Local Abbreviation validate := (_validate_interpolation Method INTERPOLATION_METHODS).
Local Abbreviation handler_try :=
  (get_elevation_try py_float polyline_decode Method Dataset INTERPOLATION_METHODS
     _load_config _load_datasets backend_get_elevation).
Local Abbreviation handler :=
  (get_elevation py_float polyline_decode Method Dataset INTERPOLATION_METHODS
     _load_config _load_datasets backend_get_elevation debug).

Lemma registry_member (method : string) :
  existsb (String.eqb method) (map fst INTERPOLATION_METHODS) = true
  <-> In method (map fst INTERPOLATION_METHODS).
Proof.
  rewrite existsb_exists. split.
  - intros (k & Hk & E). apply String.eqb_eq in E. now subst.
  - intros H. exists method. split; [assumption | apply String.eqb_refl].
Qed.

Lemma validate_known (method : string) :
  In method (map fst INTERPOLATION_METHODS) -> validate method = Ok method.
Proof.
  intros H. apply registry_member in H. unfold _validate_interpolation. now rewrite H.
Qed.

Lemma validate_unknown (method : string) :
  ~ In method (map fst INTERPOLATION_METHODS) ->
  validate method
  = Raise (ClientError
             ("Invalid interpolation method '" ++ method
                ++ "' not recognized. Valid interpolation methods: "
                ++ Py.join ", " (map fst INTERPOLATION_METHODS) ++ ".")).
Proof.
  intros H. unfold _validate_interpolation.
  destruct (existsb _ _) eqn:E; [apply registry_member in E; contradiction|].
  reflexivity.
Qed.

Lemma validate_raises (method : string) (e : exn) :
  validate method = Raise e -> exists msg, e = ClientError msg.
Proof.
  unfold _validate_interpolation. destruct (existsb _ _); cbn; [discriminate|].
  intros H. injection H as <-. eauto.
Qed.

Lemma parse_locations_raises (raw : option string) (max_n : Z) (e : exn) :
  _parse_locations py_float polyline_decode raw max_n = Raise e ->
  exists msg, e = ClientError msg.
Proof.
  unfold _parse_locations. destruct (Py.falsy raw); [intros H; injection H as <-; eauto|].
  set (s := default "" raw). destruct (Py.str_in "," s).
  - unfold _parse_latlon_locations. destruct (_ >? _).
    + intros H; injection H as <-; eauto.
    + apply parse_each_raises.
  - rewrite parse_polyline_unfold. destruct (polyline_decode _) as [pts|].
    + destruct (_ <? _); [intros H; injection H as <-; eauto | discriminate].
    + intros H; injection H as <-; eauto.
Qed.

Lemma get_dataset_raises (datasets : gmap string Dataset) (name : string) (e : exn) :
  _load_datasets = Ok datasets ->
  _get_dataset Dataset _load_datasets name = Raise e ->
  datasets !! name = None /\
  e = ClientError ("Dataset '" ++ name ++ "' not in config.").
Proof.
  intros Hd. unfold _get_dataset. rewrite Hd. cbn [bind].
  destruct (datasets !! name); [discriminate|].
  intros H. injection H as <-. auto.
Qed.


(** What the [try] block can raise: a ClientError of the checks of api.py, or
    whatever one of the collaborators raised. *)
Lemma handler_try_raises (dataset_name : string) (args : request_args) (e : exn) :
  handler_try dataset_name args = Raise e ->
  (exists msg, e = ClientError msg) \/
  _load_config = Raise e \/
  _load_datasets = Raise e \/
  (exists lats lons dataset method,
     backend_get_elevation lats lons dataset method = Raise e).
Proof.
  unfold get_elevation_try.
  destruct (validate _) as [method|e1] eqn:Hv; cbn [bind];
    [|intros H; injection H as <-; left; eauto using validate_raises].
  destruct _load_config as [cfg|e2]; cbn [bind];
    [|intros H; injection H as <-; auto].
  destruct (_parse_locations _ _ _ _) as [batch|e3] eqn:Hp; cbn [bind];
    [|intros H; injection H as <-; left; eauto using parse_locations_raises].
  unfold _get_dataset.
  destruct _load_datasets as [datasets|e4]; cbn [bind];
    [|intros H; injection H as <-; auto].
  destruct (datasets !! dataset_name) as [dataset|]; cbn [bind];
    [|intros H; injection H as <-; left; eauto].
  destruct (backend_get_elevation _ _ _ _) as [elevations|e5] eqn:Hb; cbn [bind];
    [discriminate|].
  intros H; injection H as <-. do 3 right. eauto.
Qed.

(** C8: the handler maps what its [try] block raises to the wire.  A
    ClientError or a backend InputError gives 400 and INVALID_REQUEST with the
    message of the error; a ConfigError gives 500 and SERVER_ERROR; any other
    exception gives, outside debug mode, 500 and SERVER_ERROR with the fixed
    retry message, whatever the exception holds (which goes to the log only),
    and in debug mode leaves the handler as it is.  The method validator, the
    location parser and the dataset lookup raise nothing but ClientError, so
    every fault they find in the input is a 400; whatever else the [try]
    block raises was raised by the config, the dataset registry or the
    backend. *)
Theorem error_mapping (dataset_name : string) (args : request_args) :
  (forall msg,
     handler_try dataset_name args = Raise (ClientError msg) \/
     handler_try dataset_name args = Raise (InputError msg) ->
     handler dataset_name args = (Responds (invalid_request msg), [])) /\
  (forall msg,
     handler_try dataset_name args = Raise (ConfigError msg) ->
     handler dataset_name args = (Responds (server_error msg), [])) /\
  (forall detail,
     handler_try dataset_name args = Raise (OtherException detail) ->
     handler dataset_name args
     = if debug then (Propagates (OtherException detail), [])
       else (Responds (server_error "Server error, please retry request."), [detail])) /\
  (forall method e, validate method = Raise e -> exists msg, e = ClientError msg) /\
  (forall raw max_n e,
     _parse_locations py_float polyline_decode raw max_n = Raise e ->
     exists msg, e = ClientError msg) /\
  (forall datasets name e,
     _load_datasets = Ok datasets ->
     _get_dataset Dataset _load_datasets name = Raise e ->
     e = ClientError ("Dataset '" ++ name ++ "' not in config.")) /\
  (forall e,
     handler_try dataset_name args = Raise e ->
     (exists msg, e = ClientError msg) \/
     _load_config = Raise e \/
     _load_datasets = Raise e \/
     (exists lats lons dataset method,
        backend_get_elevation lats lons dataset method = Raise e)).
Proof.
  unfold get_elevation. repeat split.
  - intros msg [H|H]; now rewrite H.
  - intros msg H. now rewrite H.
  - intros detail H. now rewrite H.
  - apply validate_raises.
  - apply parse_locations_raises.
  - intros datasets name e Hd H. now destruct (get_dataset_raises _ _ _ Hd H).
  - apply handler_try_raises.
Qed.

(** C9: a request without the interpolation parameter is handled as one that
    names [bilinear], so the validator is always given a name; a name among
    the keys of the registry is returned as it is; any other name raises a
    ClientError whose message holds every key of the registry. *)
Theorem interpolation_validation :
  (forall dataset_name locations,
     handler dataset_name {| arg_interpolation := None; arg_locations := locations |}
     = handler dataset_name
         {| arg_interpolation := Some "bilinear"; arg_locations := locations |}) /\
  (forall method,
     In method (map fst INTERPOLATION_METHODS) -> validate method = Ok method) /\
  (forall method,
     ~ In method (map fst INTERPOLATION_METHODS) ->
     exists msg,
       validate method = Raise (ClientError msg) /\
       msg = "Invalid interpolation method '" ++ method
               ++ "' not recognized. Valid interpolation methods: "
               ++ Py.join ", " (map fst INTERPOLATION_METHODS) ++ "." /\
       forall k, In k (map fst INTERPOLATION_METHODS) -> Py.str_in k msg = true).
Proof.
  split; [reflexivity|]. split; [apply validate_known|].
  intros method H. eexists. split; [now apply validate_unknown|].
  split; [reflexivity|]. intros k Hk.
  destruct (PyFacts.join_holds ", " k _ Hk) as (pre & post & ->).
  rewrite <- !PyFacts.append_assoc.
  rewrite (PyFacts.append_assoc _ k post), (PyFacts.append_assoc _ (k ++ post) ".").
  rewrite (PyFacts.append_assoc k post ".").
  apply PyFacts.str_in_app.
Qed.

End HandlerFacts.

(** * The handler at concrete requests *)
(** C8 at concrete requests: no locations; a dataset that is not configured;
    a backend that rejects the input; a config that does not load; a backend
    that fails unexpectedly, outside and inside debug mode. *)
Lemma error_mapping_witness :
  Example.serve (Ok Example.cfg) Example.backend false "test-dataset"
    {| arg_interpolation := None; arg_locations := None |}
  = (Responds (invalid_request
                 "No locations provided. Add locations in a query string: ?locations=lat1,lon1|lat2,lon2."),
     []) /\
  Example.serve (Ok Example.cfg) Example.backend false "srtm"
    {| arg_interpolation := None; arg_locations := Some "-10,120" |}
  = (Responds (invalid_request "Dataset 'srtm' not in config."), []) /\
  Example.serve (Ok Example.cfg) (fun _ _ _ _ => Raise (InputError "Location outside the dataset."))
    false "test-dataset"
    {| arg_interpolation := None; arg_locations := Some "-10,120" |}
  = (Responds (invalid_request "Location outside the dataset."), []) /\
  Example.serve (Raise (ConfigError "Missing config file.")) Example.backend false
    "test-dataset" {| arg_interpolation := None; arg_locations := Some "-10,120" |}
  = (Responds (server_error "Missing config file."), []) /\
  Example.serve (Ok Example.cfg) (fun _ _ _ _ => Raise (OtherException "rasterio: /data/x.tif"))
    false "test-dataset"
    {| arg_interpolation := None; arg_locations := Some "-10,120" |}
  = (Responds (server_error "Server error, please retry request."),
     ["rasterio: /data/x.tif"]) /\
  Example.serve (Ok Example.cfg) (fun _ _ _ _ => Raise (OtherException "rasterio: /data/x.tif"))
    true "test-dataset"
    {| arg_interpolation := None; arg_locations := Some "-10,120" |}
  = (Propagates (OtherException "rasterio: /data/x.tif"), []).
Proof.
  split; [|split; [|split; [|split; [|split]]]].
  - apply (proj1 (error_mapping Decimal.float_of_decimal Polyline.decode unit unit
                    Example.methods (Ok Example.cfg) (Ok Example.datasets)
                    Example.backend false "test-dataset" _)).
    left. vm_compute. reflexivity.
  - apply (proj1 (error_mapping Decimal.float_of_decimal Polyline.decode unit unit
                    Example.methods (Ok Example.cfg) (Ok Example.datasets)
                    Example.backend false "srtm" _)).
    left. vm_compute. reflexivity.
  - apply (proj1 (error_mapping Decimal.float_of_decimal Polyline.decode unit unit
                    Example.methods (Ok Example.cfg) (Ok Example.datasets)
                    _ false "test-dataset" _)).
    right. vm_compute. reflexivity.
  - apply (proj1 (proj2 (error_mapping Decimal.float_of_decimal Polyline.decode unit unit
                           Example.methods _ (Ok Example.datasets)
                           Example.backend false "test-dataset" _))).
    vm_compute. reflexivity.
  - apply (proj1 (proj2 (proj2 (error_mapping Decimal.float_of_decimal Polyline.decode
                                  unit unit Example.methods (Ok Example.cfg)
                                  (Ok Example.datasets) _ false "test-dataset" _)))
             "rasterio: /data/x.tif").
    vm_compute. reflexivity.
  - apply (proj1 (proj2 (proj2 (error_mapping Decimal.float_of_decimal Polyline.decode
                                  unit unit Example.methods (Ok Example.cfg)
                                  (Ok Example.datasets) _ true "test-dataset" _)))
             "rasterio: /data/x.tif").
    vm_compute. reflexivity.
Defined.

(** C9 at concrete requests: [spline] is no method of the registry; a request
    that names no method is served, with [bilinear]. *)
Lemma interpolation_validation_witness :
  _validate_interpolation unit Example.methods "spline"
  = Raise (ClientError
             "Invalid interpolation method 'spline' not recognized. Valid interpolation methods: nearest, bilinear, cubic.") /\
  _validate_interpolation unit Example.methods "cubic" = Ok "cubic" /\
  Example.serve (Ok Example.cfg) Example.backend false "test-dataset"
    {| arg_interpolation := None; arg_locations := Some "-10,120" |}
  = (Responds
       {| body :=
            JObject
              [("status", JString "OK");
               ("results",
                JList [JObject [("elevation", JFloat 815);
                                ("location", JObject [("lat", JFloat (-10));
                                                      ("lng", JFloat 120)])]])];
          status_code := 200 |}, []).
Proof.
  pose proof (interpolation_validation Decimal.float_of_decimal Polyline.decode unit unit
                Example.methods (Ok Example.cfg) (Ok Example.datasets)
                Example.backend false) as (Hdefault & Hknown & Hunknown).
  split; [|split].
  - destruct (Hunknown "spline") as (msg & Hv & -> & _).
    + cbn. intros [H|[H|[H|[]]]]; discriminate.
    + exact Hv.
  - apply Hknown. cbn. auto.
  - unfold Example.serve. rewrite Hdefault. vm_compute. reflexivity.
Defined.

(** * Facts about the range tests *)

Module FloatFacts.

Lemma SFcompare_refl (f : spec_float) :
  f <> S754_nan -> SFcompare f f = Some Eq.
Proof.
  destruct f as [s|s| |s m e]; cbn; intros H; try congruence.
  - now destruct s.
  - destruct s; now rewrite Z.compare_refl, Pos.compare_cont_refl.
Qed.

(** A float that compares with a finite float from below and from above is
    neither a NaN nor an infinity. *)
Lemma between_is_finite (c d x : float) :
  (exists s m e, Prim2SF c = S754_finite s m e) ->
  (exists s m e, Prim2SF d = S754_finite s m e) ->
  PrimFloat.leb c x = true -> PrimFloat.leb x d = true ->
  PrimFloat.is_nan x = false /\ PrimFloat.is_infinity x = false.
Proof.
  intros (sc & mc & ec & Hc) (sd & md & ed & Hd) Hcx Hxd.
  rewrite leb_spec in Hcx, Hxd. rewrite Hc in Hcx. rewrite Hd in Hxd.
  unfold PrimFloat.is_nan, PrimFloat.is_infinity.
  rewrite !eqb_spec, abs_spec.
  change (Prim2SF infinity) with (S754_infinity false).
  destruct (Prim2SF x) as [s|s| |s m e] eqn:Hx.
  - split; [now destruct s | reflexivity].
  - destruct s; cbn in Hcx, Hxd.
    + destruct sc; discriminate.
    + destruct sd; discriminate.
  - discriminate.
  - unfold SFeqb. rewrite SFcompare_refl by discriminate. split; reflexivity.
Qed.

Lemma bound_is_finite (n : Z) :
  n = LAT_MIN \/ n = LAT_MAX \/ n = LON_MIN \/ n = LON_MAX ->
  exists s m e, Prim2SF (float_of_bound n) = S754_finite s m e.
Proof.
  intros [->|[->|[->| ->]]]; vm_compute; eauto.
Qed.

Lemma lat_in_range_finite (x : float) :
  lat_in_range x = true ->
  PrimFloat.is_nan x = false /\ PrimFloat.is_infinity x = false.
Proof.
  unfold lat_in_range, int_le_float, float_le_int. intros H.
  apply andb_true_iff in H. destruct H as [H1 H2].
  apply (between_is_finite (float_of_bound LAT_MIN) (float_of_bound LAT_MAX));
    auto using bound_is_finite.
Qed.

Lemma lon_in_range_finite (x : float) :
  lon_in_range x = true ->
  PrimFloat.is_nan x = false /\ PrimFloat.is_infinity x = false.
Proof.
  unfold lon_in_range, int_le_float, float_le_int. intros H.
  apply andb_true_iff in H. destruct H as [H1 H2].
  apply (between_is_finite (float_of_bound LON_MIN) (float_of_bound LON_MAX));
    auto 6 using bound_is_finite.
Qed.

End FloatFacts.

(** * More on the delimited-pairs parser *)

Module StripFacts.

Lemma only_char_cons (c a : ascii) (s : string) :
  only_char c (String a s) -> a = c /\ only_char c s.
Proof.
  intros H. split.
  - apply H. now left.
  - intros x Hx. apply H. now right.
Qed.

Lemma lstrip_only (c : ascii) (l : string) :
  only_char c l -> Py.lstrip c l = "".
Proof.
  induction l as [|a l IH]; intros H; [reflexivity|].
  apply only_char_cons in H. destruct H as [-> H].
  cbn [Py.lstrip]. rewrite Ascii.eqb_refl. auto.
Qed.

Lemma lstrip_app_only (c : ascii) (l s : string) :
  only_char c l -> Py.lstrip c (l ++ s) = Py.lstrip c s.
Proof.
  induction l as [|a l IH]; intros H; [reflexivity|].
  apply only_char_cons in H. destruct H as [-> H].
  change (String c l ++ s) with (String c (l ++ s)).
  cbn [Py.lstrip]. rewrite Ascii.eqb_refl. auto.
Qed.

Lemma rstrip_only (c : ascii) (r : string) :
  only_char c r -> Py.rstrip c r = "".
Proof.
  induction r as [|a r IH]; intros H; [reflexivity|].
  apply only_char_cons in H. destruct H as [-> H].
  cbn [Py.rstrip]. rewrite (IH H), Ascii.eqb_refl. reflexivity.
Qed.

Lemma rstrip_app_only (c : ascii) (s r : string) :
  only_char c r -> Py.rstrip c (s ++ r) = Py.rstrip c s.
Proof.
  intros H. induction s as [|a s IH].
  - change ("" ++ r) with r. now rewrite rstrip_only.
  - change (String a s ++ r) with (String a (s ++ r)).
    cbn [Py.rstrip]. now rewrite IH.
Qed.

Lemma strip_app_only_r (c : ascii) (s r : string) :
  only_char c r -> Py.strip c (s ++ r) = Py.strip c s.
Proof.
  intros H. unfold Py.strip. induction s as [|a s IH].
  - change ("" ++ r) with r. now rewrite lstrip_only.
  - change (String a s ++ r) with (String a (s ++ r)).
    cbn [Py.lstrip]. destruct (Ascii.eqb a c); [exact IH|].
    change (String a (s ++ r)) with (String a s ++ r).
    now apply rstrip_app_only.
Qed.

(** Separators around a string do not survive [strip]. *)
Lemma strip_padded (c : ascii) (l s r : string) :
  only_char c l -> only_char c r ->
  Py.strip c (l ++ s ++ r) = Py.strip c s.
Proof.
  intros Hl Hr. rewrite <- (strip_app_only_r c s r Hr).
  unfold Py.strip. now rewrite lstrip_app_only.
Qed.

Lemma has_char_only (c a : ascii) (s : string) :
  only_char c s -> a <> c -> ~ has_char a s.
Proof. intros H Hne Ha. apply Hne. now apply H. Qed.

End StripFacts.

Section MoreLatLon.

Variable py_float : string -> option float.
Variable polyline_decode : string -> option (list (float * float)).

(** The error of one segment: always the sentence with the segment and its
    position, then one of four endings. *)
Lemma parse_latlon_raise_shape (i : nat) (loc : string) (e : exn) :
  parse_latlon py_float i loc = Raise e ->
  exists tail,
    e = ClientError
          ("Unable to parse location '" ++ loc ++ "' in position "
             ++ Py.str_of_int (Z.of_nat i + 1) ++ "." ++ tail) /\
    In tail [""; " Add locations like lat1,lon1|lat2,lon2.";
             " Latitude must be between -90 and 90. Provide locations in lat,lon order.";
             " Longitude must be between -180 and 180."].
Proof.
  intros H. destruct (Py.str_in "," loc) eqn:Hin.
  - apply PyFacts.str_in_char, PyFacts.has_char_split in Hin.
    destruct Hin as (a & b & -> & Ha).
    rewrite parse_latlon_comma in H by assumption.
    destruct (py_float a) as [lat|], (py_float b) as [lon|];
      try (injection H as <-; exists ""; split; [reflexivity | cbn; auto]).
    destruct (lat_in_range lat); cbn in H.
    + destruct (lon_in_range lon); cbn in H; [discriminate|].
      injection H as <-. eexists. split; [reflexivity | cbn; auto].
    + injection H as <-. eexists. split; [reflexivity | cbn; auto].
  - apply PyFacts.str_in_char_false in Hin.
    rewrite parse_latlon_no_comma in H by assumption.
    injection H as <-. eexists. split; [reflexivity | cbn; auto].
Qed.

(** A failure of the loop is the failure of one segment, and the segments
    before it read as points. *)
Lemma parse_each_raise_inv (locs : list string) :
  forall (i : nat) (lats lons : list float) (e : exn),
    parse_each py_float i locs lats lons = Raise e ->
    exists pre loc post prev,
      locs = (pre ++ loc :: post)%list /\
      Forall2 (reads_as py_float) pre prev /\
      parse_latlon py_float (i + List.length pre) loc = Raise e.
Proof.
  induction locs as [|loc locs IH]; intros i lats lons e H; [discriminate|].
  cbn [parse_each] in H.
  destruct (parse_latlon py_float i loc) as [v|e'] eqn:Hv; cbn [bind] in H.
  - apply IH in H. destruct H as (pre & bad & post & prev & -> & Hpre & Hbad).
    exists (loc :: pre), bad, post, (v :: prev). split; [reflexivity|]. split.
    + constructor; [now apply (parse_latlon_ok py_float i) | assumption].
    + cbn [List.length]. now rewrite Nat.add_succ_r.
  - injection H as <-. exists [], loc, locs, []. split; [reflexivity|]. split.
    + constructor.
    + cbn [List.length]. now rewrite Nat.add_0_r.
Qed.

Lemma parse_locations_lengths (raw : option string) (max_n : Z)
    (lats lons : list float) :
  _parse_locations py_float polyline_decode raw max_n = Ok (lats, lons) ->
  List.length lats = List.length lons.
Proof.
  unfold _parse_locations. destruct (Py.falsy raw); [discriminate|].
  set (s := default "" raw). destruct (Py.str_in "," s).
  - intros H. apply parse_latlon_locations_ok in H.
    destruct H as (vals & _ & -> & -> & _). now rewrite !length_map.
  - rewrite parse_polyline_unfold. destruct (polyline_decode _) as [pts|]; [|discriminate].
    destruct (_ <? _); [discriminate|]. intros H. injection H as <- <-.
    now rewrite !length_map.
Qed.

(** X2: in the delimited-pairs path every coordinate of a returned batch passed
    its range test, so none is a NaN or an infinity: [float()] reads [nan] and
    [inf], the comparisons reject them. *)
Theorem delimited_batch_in_range (raw : string) (max_n : Z) (lats lons : list float) :
  has_char "," raw ->
  _parse_locations py_float polyline_decode (Some raw) max_n = Ok (lats, lons) ->
  Forall (fun lat => lat_in_range lat = true /\
                     PrimFloat.is_nan lat = false /\ PrimFloat.is_infinity lat = false)
    lats /\
  Forall (fun lon => lon_in_range lon = true /\
                     PrimFloat.is_nan lon = false /\ PrimFloat.is_infinity lon = false)
    lons.
Proof.
  intros Hc H. rewrite parse_locations_comma in H by assumption.
  apply parse_latlon_locations_ok in H. destruct H as (vals & Hvals & -> & -> & _).
  assert (Hall : Forall (fun v => lat_in_range (fst v) = true /\
                                  lon_in_range (snd v) = true) vals).
  { clear -Hvals. induction Hvals as [|loc v locs vals Hv _ IH]; constructor; [|exact IH].
    destruct Hv as (a & b & _ & _ & _ & _ & Hlat & Hlon). auto. }
  split; apply Forall_map; (eapply Forall_impl; [|exact Hall]); cbn; intros v [Hlat Hlon].
  - split; [assumption | now apply FloatFacts.lat_in_range_finite].
  - split; [assumption | now apply FloatFacts.lon_in_range_finite].
Qed.

(** X3: a segment with a comma whose latitude or longitude text [float()] does not
    read, reached after segments that all read as points, raises the bare
    sentence with the segment and its 1-based position. *)
Theorem non_numeric_segment (raw : string) (max_n : Z) (pre post : list string)
    (prev : list (float * float)) (a b : string) :
  Py.split "|" (Py.strip "|" raw) = (pre ++ (a ++ "," ++ b)%string :: post)%list ->
  Z.of_nat (List.length (pre ++ (a ++ "," ++ b)%string :: post)%list) <= max_n ->
  Forall2 (reads_as py_float) pre prev ->
  ~ has_char "," a ->
  py_float a = None \/ py_float b = None ->
  _parse_latlon_locations py_float raw max_n
  = Raise (ClientError
             ("Unable to parse location '" ++ (a ++ "," ++ b) ++ "' in position "
                ++ Py.str_of_int (Z.of_nat (List.length pre) + 1) ++ ".")).
Proof.
  intros Hsplit Hn Hpre Ha Hf.
  rewrite parse_latlon_within; rewrite Hsplit; [|assumption].
  eapply parse_each_first_error; [eassumption|].
  change (a ++ "," ++ b) with (a ++ String "," b).
  rewrite parse_latlon_comma by assumption.
  destruct Hf as [Hf|Hf]; rewrite Hf; [reflexivity|].
  now destruct (py_float a).
Qed.

(** X4: every failure of the delimited-pairs parser is the too-many error, or
    names the first segment that does not read as a point together with its
    1-based position: the segments before it all read as points, and the
    message is the sentence with the segment and the position, followed by
    nothing, by the format hint, by the latitude bounds with the order hint,
    or by the longitude bounds. *)
Theorem delimited_failure (raw : string) (max_n : Z) (e : exn) :
  _parse_latlon_locations py_float raw max_n = Raise e ->
  (max_n < Z.of_nat (List.length (Py.split "|" (Py.strip "|" raw))) /\
   e = ClientError
         ("Too many locations provided ("
            ++ Py.str_of_int (Z.of_nat (List.length (Py.split "|" (Py.strip "|" raw))))
            ++ "), the limit is " ++ Py.str_of_int max_n ++ ".")) \/
  (exists pre loc post prev tail,
     Py.split "|" (Py.strip "|" raw) = (pre ++ loc :: post)%list /\
     Forall2 (reads_as py_float) pre prev /\
     (forall v, ~ reads_as py_float loc v) /\
     e = ClientError
           ("Unable to parse location '" ++ loc ++ "' in position "
              ++ Py.str_of_int (Z.of_nat (List.length pre) + 1) ++ "." ++ tail) /\
     In tail [""; " Add locations like lat1,lon1|lat2,lon2.";
              " Latitude must be between -90 and 90. Provide locations in lat,lon order.";
              " Longitude must be between -180 and 180."]).
Proof.
  intros H.
  destruct (Z.lt_ge_cases max_n (Z.of_nat (List.length (Py.split "|" (Py.strip "|" raw)))))
    as [Hlt|Hge].
  - left. split; [assumption|].
    rewrite parse_latlon_too_many in H by assumption. now injection H as <-.
  - right. rewrite parse_latlon_within in H by assumption.
    apply parse_each_raise_inv in H.
    destruct H as (pre & loc & post & prev & Hsplit & Hpre & Hbad).
    cbn [Nat.add] in Hbad.
    destruct (parse_latlon_raise_shape _ _ _ Hbad) as (tail & -> & Htail).
    exists pre, loc, post, prev, tail. repeat split; try assumption.
    intros v Hv. apply (parse_latlon_ok py_float (List.length pre)) in Hv.
    rewrite Hv in Hbad. discriminate.
Qed.

(** X5: separators before and after a delimited batch are ignored. *)
Theorem separators_around_ignored (l raw r : string) (max_n : Z) :
  has_char "," raw -> only_char "|" l -> only_char "|" r ->
  _parse_locations py_float polyline_decode (Some (l ++ raw ++ r)) max_n
  = _parse_locations py_float polyline_decode (Some raw) max_n.
Proof.
  intros Hc Hl Hr.
  rewrite !parse_locations_comma; try assumption.
  - unfold _parse_latlon_locations. now rewrite StripFacts.strip_padded.
  - apply PyFacts.has_char_app. right. apply PyFacts.has_char_app. now left.
Qed.

End MoreLatLon.

(** * More on the request handler *)

Section MoreHandler.

Variable py_float : string -> option float.
Variable polyline_decode : string -> option (list (float * float)).
Variable Method : Type.
Variable Dataset : Type.
Variable INTERPOLATION_METHODS : list (string * Method).
Variable _load_config : result config.
Variable _load_datasets : result (gmap string Dataset).
Variable backend_get_elevation :
  list float -> list float -> Dataset -> string -> result (list (option float)).
Variable debug : bool.

Local Abbreviation validate := (_validate_interpolation Method INTERPOLATION_METHODS).
Local Abbreviation keys := (map fst INTERPOLATION_METHODS).
Local Abbreviation method_of args :=
  (default DEFAULT_INTERPOLATION_METHOD (arg_interpolation args)).
Local Abbreviation parse := (_parse_locations py_float polyline_decode).
Local Abbreviation handler_try :=
  (get_elevation_try py_float polyline_decode Method Dataset INTERPOLATION_METHODS
     _load_config _load_datasets backend_get_elevation).
Local Abbreviation handler :=
  (get_elevation py_float polyline_decode Method Dataset INTERPOLATION_METHODS
     _load_config _load_datasets backend_get_elevation debug).
Local Abbreviation request :=
  (elevation_request py_float polyline_decode Method Dataset INTERPOLATION_METHODS
     _load_config _load_datasets backend_get_elevation debug).

Lemma handler_try_ok_status (dataset_name : string) (args : request_args) (r : response) :
  handler_try dataset_name args = Ok r -> status_code r = 200.
Proof.
  unfold get_elevation_try.
  destruct (validate _); cbn [bind]; [|discriminate].
  destruct _load_config; cbn [bind]; [|discriminate].
  destruct (parse _ _); cbn [bind]; [|discriminate].
  destruct (_get_dataset _ _ _); cbn [bind]; [|discriminate].
  destruct (backend_get_elevation _ _ _ _); cbn [bind]; [|discriminate].
  intros H. injection H as <-. reflexivity.
Qed.

(** The steps of the [try] block, one after the other. *)
Lemma handler_try_steps (dataset_name : string) (args : request_args) :
  handler_try dataset_name args
  = (method <- validate (method_of args) ;;
     cfg <- _load_config ;;
     batch <- parse (arg_locations args) (max_locations_per_request cfg) ;;
     dataset <- _get_dataset Dataset _load_datasets dataset_name ;;
     elevations <- backend_get_elevation (fst batch) (snd batch) dataset method ;;
     Ok {| body :=
             JObject
               [("status", JString "OK");
                ("results",
                 JList (map (fun r => result_entry (fst r) (fst (snd r)) (snd (snd r)))
                          (combine elevations (combine (fst batch) (snd batch)))))];
           status_code := 200 |}).
Proof. reflexivity. Qed.

(** Outside debug mode the view always answers. *)
Lemma handler_answers (dataset_name : string) (args : request_args) :
  debug = false ->
  exists r log,
    handler dataset_name args = (Responds r, log) /\
    (status_code r = 200 \/ status_code r = 400 \/ status_code r = 500).
Proof.
  intros Hd. unfold get_elevation. rewrite Hd.
  destruct (handler_try dataset_name args) as [r|[msg|msg|msg|detail]] eqn:H.
  - apply handler_try_ok_status in H. eauto.
  - eexists _, _. split; [reflexivity|]. auto.
  - eexists _, _. split; [reflexivity|]. auto.
  - eexists _, _. split; [reflexivity|]. auto.
  - eexists _, _. split; [reflexivity|]. auto.
Qed.

Lemma apply_cors_with_origin {B : Type} (response : flask_response B) (cfg : config) :
  _load_config = Ok cfg ->
  access_control_allow_origin cfg <> "" ->
  apply_cors _load_config response
  = Ok {| view_result := view_result response;
          headers := <["access-control-allow-origin" := access_control_allow_origin cfg]>
                       (headers response) |}.
Proof.
  intros Hcfg Hne. unfold apply_cors. rewrite Hcfg. cbn [bind].
  apply String.eqb_neq in Hne. now rewrite Hne.
Qed.

(** X6: the statuses of the elevation view: a response is 200, 400 or 500, never
    the 404 of the help view; something is logged only with a 500; and an
    exception leaves the view only in debug mode, and is then none of
    ClientError, InputError and ConfigError. *)
Theorem elevation_statuses (dataset_name : string) (args : request_args) :
  match handler dataset_name args with
  | (Responds r, log) =>
      (status_code r = 200 \/ status_code r = 400 \/ status_code r = 500) /\
      status_code r <> status_code get_help_message /\
      (log <> [] -> status_code r = 500)
  | (Propagates e, log) =>
      debug = true /\ (exists detail, e = OtherException detail) /\ log = []
  end.
Proof.
  unfold get_elevation.
  destruct (handler_try dataset_name args) as [r|[msg|msg|msg|detail]] eqn:H.
  - apply handler_try_ok_status in H. rewrite H. cbn.
    split; [auto|]. split; [discriminate | congruence].
  - cbn. split; [auto|]. split; [discriminate | congruence].
  - cbn. split; [auto|]. split; [discriminate | congruence].
  - cbn. split; [auto|]. split; [discriminate | congruence].
  - destruct debug; cbn.
    + eauto.
    + split; [auto|]. split; [discriminate | reflexivity].
Qed.

(** X7: when the config and the registry load and the backend raises nothing but
    InputError, every request is answered with 200 or 400: no input of the
    client gives a 500, is logged, or lets an exception out, in debug mode or
    not. *)
Theorem healthy_collaborators (dataset_name : string) (args : request_args)
    (cfg : config) (datasets : gmap string Dataset) :
  _load_config = Ok cfg ->
  _load_datasets = Ok datasets ->
  (forall lats lons dataset method e,
     backend_get_elevation lats lons dataset method = Raise e ->
     exists msg, e = InputError msg) ->
  exists r,
    handler dataset_name args = (Responds r, []) /\
    (status_code r = 200 \/ status_code r = 400).
Proof.
  intros Hcfg Hds Hb. unfold get_elevation.
  destruct (handler_try dataset_name args) as [r|e] eqn:H.
  - apply handler_try_ok_status in H. eauto.
  - destruct (handler_try_raises _ _ _ _ _ _ _ _ _ _ _ H)
      as [(msg & ->)|[He|[He|(lats & lons & dataset & method & He)]]].
    + eexists. split; [reflexivity|]. auto.
    + congruence.
    + congruence.
    + destruct (Hb _ _ _ _ _ He) as (msg & ->).
      eexists. split; [reflexivity|]. auto.
Qed.

(** X8: a method that is not in the registry is answered first: 400 with the
    message that lists the methods, whatever the locations, the dataset name,
    the config, the registry of datasets and the backend are. *)
Theorem unknown_method_first (dataset_name : string) (args : request_args) :
  ~ In (method_of args) keys ->
  handler dataset_name args
  = (Responds (invalid_request
                 ("Invalid interpolation method '" ++ method_of args
                    ++ "' not recognized. Valid interpolation methods: "
                    ++ Py.join ", " keys ++ ".")), []).
Proof.
  intros H. unfold get_elevation. rewrite handler_try_steps.
  rewrite (validate_unknown _ _ _ H). reflexivity.
Qed.

(** X9: with a known method, a config that does not load is answered before the
    locations are looked at: 500 with the message of the ConfigError. *)
Theorem config_error_before_locations (dataset_name : string) (args : request_args)
    (msg : string) :
  In (method_of args) keys ->
  _load_config = Raise (ConfigError msg) ->
  handler dataset_name args = (Responds (server_error msg), []).
Proof.
  intros Hm Hcfg. unfold get_elevation. rewrite handler_try_steps.
  rewrite (validate_known _ _ _ Hm), Hcfg. reflexivity.
Qed.

(** X10: with a known method and a config that loads, locations that do not parse
    are answered before the dataset is looked up: 400 with the message of the
    parser, whatever the dataset name, the registry and the backend are. *)
Theorem locations_before_dataset (dataset_name : string) (args : request_args)
    (cfg : config) (e : exn) :
  In (method_of args) keys ->
  _load_config = Ok cfg ->
  parse (arg_locations args) (max_locations_per_request cfg) = Raise e ->
  exists msg,
    e = ClientError msg /\
    handler dataset_name args = (Responds (invalid_request msg), []).
Proof.
  intros Hm Hcfg Hp.
  destruct (parse_locations_raises _ _ _ _ _ Hp) as (msg & ->).
  exists msg. split; [reflexivity|].
  unfold get_elevation. rewrite handler_try_steps.
  rewrite (validate_known _ _ _ Hm), Hcfg. cbn [bind]. rewrite Hp. reflexivity.
Qed.

(** X11: with a known method, a config that loads and locations that parse, a
    dataset name that is not a key of the registry is answered with 400 and a
    message that names it, whatever else the registry holds and whatever the
    backend is. *)
Theorem unknown_dataset (dataset_name : string) (args : request_args)
    (cfg : config) (batch : list float * list float) (datasets : gmap string Dataset) :
  In (method_of args) keys ->
  _load_config = Ok cfg ->
  parse (arg_locations args) (max_locations_per_request cfg) = Ok batch ->
  _load_datasets = Ok datasets ->
  datasets !! dataset_name = None ->
  handler dataset_name args
  = (Responds (invalid_request ("Dataset '" ++ dataset_name ++ "' not in config.")), []).
Proof.
  intros Hm Hcfg Hp Hds Hname.
  unfold get_elevation. rewrite handler_try_steps.
  rewrite (validate_known _ _ _ Hm), Hcfg. cbn [bind]. rewrite Hp. cbn [bind].
  unfold _get_dataset. rewrite Hds. cbn [bind]. rewrite Hname. reflexivity.
Qed.

(** X12: a request that passes every check is answered with 200, status OK and
    the results in the order of the points: there are as many results as the
    shorter of the elevations and the points, and the result at an index
    holds the elevation, the latitude and the longitude at that index. *)
Theorem success_response (dataset_name : string) (args : request_args)
    (cfg : config) (lats lons : list float) (datasets : gmap string Dataset)
    (dataset : Dataset) (elevations : list (option float)) :
  In (method_of args) keys ->
  _load_config = Ok cfg ->
  parse (arg_locations args) (max_locations_per_request cfg) = Ok (lats, lons) ->
  _load_datasets = Ok datasets ->
  datasets !! dataset_name = Some dataset ->
  backend_get_elevation lats lons dataset (method_of args) = Ok elevations ->
  exists results,
    handler dataset_name args
    = (Responds {| body := JObject [("status", JString "OK");
                                    ("results", JList results)];
                   status_code := 200 |}, []) /\
    List.length results = Nat.min (List.length elevations) (List.length lats) /\
    forall i z lat lon,
      nth_error elevations i = Some z ->
      nth_error lats i = Some lat ->
      nth_error lons i = Some lon ->
      nth_error results i = Some (result_entry z lat lon).
Proof.
  intros Hm Hcfg Hp Hds Hname Hb.
  assert (Hlen : List.length lons = List.length lats)
    by (symmetry; exact (parse_locations_lengths _ _ _ _ _ _ Hp)).
  eexists. split; [|split].
  - unfold get_elevation. rewrite handler_try_steps.
    rewrite (validate_known _ _ _ Hm), Hcfg. cbn [bind]. rewrite Hp. cbn [bind fst snd].
    unfold _get_dataset. rewrite Hds. cbn [bind]. rewrite Hname. cbn [bind].
    rewrite Hb. cbn [bind]. reflexivity.
  - rewrite length_map, !length_combine, Hlen, Nat.min_id. reflexivity.
  - intros i z lat lon Hz Hlat Hlon.
    rewrite nth_error_map.
    assert (Hc : nth_error (combine elevations (combine lats lons)) i
                 = Some (z, (lat, lon))).
    { clear -Hz Hlat Hlon. revert i lats lons Hz Hlat Hlon.
      induction elevations as [|z0 zs IH]; intros [|i] [|l0 ls] [|o0 os] Hz Hlat Hlon;
        try discriminate; cbn in *.
      - congruence.
      - now apply IH. }
    rewrite Hc. reflexivity.
Qed.

(** X13: [apply_cors] with a config that loads: with no origin configured the
    response comes back as it was; with an origin, the header
    [access-control-allow-origin] holds it, whatever it held before, every
    other header and the result of the view are as they were, and applying
    the hook again changes nothing. *)
Theorem apply_cors_header {B : Type} (response : flask_response B) (cfg : config) :
  _load_config = Ok cfg ->
  (access_control_allow_origin cfg = "" ->
   apply_cors _load_config response = Ok response) /\
  (access_control_allow_origin cfg <> "" ->
   exists response',
     apply_cors _load_config response = Ok response' /\
     view_result response' = view_result response /\
     headers response' !! "access-control-allow-origin"
     = Some (access_control_allow_origin cfg) /\
     (forall name,
        name <> "access-control-allow-origin" ->
        headers response' !! name = headers response !! name) /\
     apply_cors _load_config response' = Ok response').
Proof.
  intros Hcfg. split.
  - intros He. unfold apply_cors. rewrite Hcfg. cbn [bind]. now rewrite He.
  - intros Hne. eexists. split; [exact (apply_cors_with_origin response cfg Hcfg Hne)|].
    cbn [view_result headers].
    split; [reflexivity|]. split; [apply lookup_insert_eq|].
    split; [intros name Hn; now apply lookup_insert_ne|].
    rewrite (apply_cors_with_origin _ cfg Hcfg Hne). cbn [view_result headers].
    now rewrite insert_insert_eq.
Qed.

(** X14: outside debug mode, with a config that loads and names an origin, every
    request to the elevation route is answered, with 200, 400 or 500, and the
    answer carries the origin in its [access-control-allow-origin] header,
    errors included. *)
Theorem every_answer_carries_origin (base : gmap string string) (dataset_name : string)
    (args : request_args) (cfg : config) :
  debug = false ->
  _load_config = Ok cfg ->
  access_control_allow_origin cfg <> "" ->
  exists answer log,
    request base dataset_name args = (Ok answer, log) /\
    headers answer !! "access-control-allow-origin"
    = Some (access_control_allow_origin cfg) /\
    (status_code (view_result answer) = 200 \/
     status_code (view_result answer) = 400 \/
     status_code (view_result answer) = 500).
Proof.
  intros Hd Hcfg Hne. unfold elevation_request.
  destruct (handler_answers dataset_name args Hd) as (r & log & -> & Hst).
  rewrite (apply_cors_with_origin _ cfg Hcfg Hne).
  eexists _, log. split; [reflexivity|]. cbn [view_result headers].
  split; [apply lookup_insert_eq | exact Hst].
Qed.

(** X15: with a known method and a config that raises ConfigError, the answer of
    the view (500 with the message) does not leave the request: the hook
    reads the config again and raises, and the request ends with the
    ConfigError. *)
Theorem config_error_reaches_hook (base : gmap string string) (dataset_name : string)
    (args : request_args) (msg : string) :
  In (method_of args) keys ->
  _load_config = Raise (ConfigError msg) ->
  request base dataset_name args = (Raise (ConfigError msg), []).
Proof.
  intros Hm Hcfg.
  assert (H : handler dataset_name args = (Responds (server_error msg), [])).
  { unfold get_elevation. rewrite handler_try_steps.
    rewrite (validate_known _ _ _ Hm), Hcfg. reflexivity. }
  unfold elevation_request. rewrite H. unfold apply_cors. rewrite Hcfg. reflexivity.
Qed.

End MoreHandler.

(** * The further properties at concrete inputs *)

Ltac not_a_method := cbn; intros [H|[H|[H|[]]]]; discriminate H.
Ltac a_method := cbn; auto.

(** X2 at a concrete input. *)
Lemma delimited_batch_in_range_witness :
  Forall (fun lat => lat_in_range lat = true /\
                     PrimFloat.is_nan lat = false /\ PrimFloat.is_infinity lat = false)
    [(-10)%float; 3.5%float].
Proof.
  exact (proj1 (delimited_batch_in_range Decimal.float_of_decimal Polyline.decode
                  "-10,120|3.5,4" 100 [(-10)%float; 3.5%float] [120%float; 4%float]
                  ltac:(some_char) ltac:(vm_compute; reflexivity))).
Defined.

(** X3 at a concrete input. *)
Lemma non_numeric_segment_witness :
  _parse_latlon_locations Decimal.float_of_decimal "1,2|x,3" 10
  = Raise (ClientError "Unable to parse location 'x,3' in position 2.").
Proof.
  exact (non_numeric_segment Decimal.float_of_decimal "1,2|x,3" 10
           ["1,2"] [] [(1%float, 2%float)] "x" "3"
           ltac:(vm_compute; reflexivity) ltac:(vm_compute; discriminate)
           ltac:(repeat constructor; reads) ltac:(no_char)
           (or_introl (@eq_refl (option float) None
                       <: Decimal.float_of_decimal "x" = None))).
Defined.

(** X4 at a concrete input. *)
Lemma delimited_failure_witness :
  exists pre loc post,
    Py.split "|" (Py.strip "|" "1,2|3") = (pre ++ loc :: post)%list /\
    forall v, ~ reads_as Decimal.float_of_decimal loc v.
Proof.
  destruct (delimited_failure Decimal.float_of_decimal "1,2|3" 10
              (ClientError
                 "Unable to parse location '3' in position 2. Add locations like lat1,lon1|lat2,lon2.")
              ltac:(vm_compute; reflexivity))
    as [[Hlt _]|(pre & loc & post & prev & tail & Hs & _ & Hno & _)].
  - vm_compute in Hlt. discriminate Hlt.
  - exists pre, loc, post. split; assumption.
Defined.

(** X5 at a concrete input. *)
Lemma separators_around_ignored_witness :
  _parse_locations Decimal.float_of_decimal Polyline.decode (Some "||1,2|3,4|") 10
  = _parse_locations Decimal.float_of_decimal Polyline.decode (Some "1,2|3,4") 10.
Proof.
  refine (separators_around_ignored Decimal.float_of_decimal Polyline.decode
            "||" "1,2|3,4" "|" 10 ltac:(some_char) _ _).
  - intros a Ha. cbn in Ha. destruct Ha as [<-|[<-|[]]]; reflexivity.
  - intros a Ha. cbn in Ha. destruct Ha as [<-|[]]; reflexivity.
Defined.

(** X7 at a concrete input. *)
Lemma healthy_collaborators_witness :
  exists r,
    Example.serve (Ok Example.cfg) Example.backend true "test-dataset"
      {| arg_interpolation := None; arg_locations := Some "200,50" |}
    = (Responds r, []) /\
    (status_code r = 200 \/ status_code r = 400).
Proof.
  refine (healthy_collaborators Decimal.float_of_decimal Polyline.decode unit unit
            Example.methods (Ok Example.cfg) (Ok Example.datasets) Example.backend true
            "test-dataset" _ Example.cfg Example.datasets eq_refl eq_refl _).
  intros lats lons dataset method e H. discriminate H.
Defined.

(** X8 at a concrete input. *)
Lemma unknown_method_first_witness :
  get_elevation Decimal.float_of_decimal Polyline.decode unit unit Example.methods
    (Raise (ConfigError "Missing config file.")) (Ok Example.datasets) Example.backend
    false "srtm" {| arg_interpolation := Some "spline"; arg_locations := None |}
  = (Responds (invalid_request
                 "Invalid interpolation method 'spline' not recognized. Valid interpolation methods: nearest, bilinear, cubic."),
     []).
Proof.
  exact (unknown_method_first Decimal.float_of_decimal Polyline.decode unit unit
           Example.methods (Raise (ConfigError "Missing config file."))
           (Ok Example.datasets) Example.backend false "srtm"
           {| arg_interpolation := Some "spline"; arg_locations := None |}
           ltac:(not_a_method)).
Defined.

(** X9 at a concrete input. *)
Lemma config_error_before_locations_witness :
  get_elevation Decimal.float_of_decimal Polyline.decode unit unit Example.methods
    (Raise (ConfigError "Missing config file.")) (Ok Example.datasets) Example.backend
    false "test-dataset" {| arg_interpolation := None; arg_locations := None |}
  = (Responds (server_error "Missing config file."), []).
Proof.
  exact (config_error_before_locations Decimal.float_of_decimal Polyline.decode unit unit
           Example.methods (Raise (ConfigError "Missing config file."))
           (Ok Example.datasets) Example.backend false "test-dataset"
           {| arg_interpolation := None; arg_locations := None |}
           "Missing config file." ltac:(a_method) eq_refl).
Defined.

(** X10 at a concrete input. *)
Lemma locations_before_dataset_witness :
  exists msg,
    ClientError
      "Unable to parse location '200,50' in position 1. Latitude must be between -90 and 90. Provide locations in lat,lon order."
    = ClientError msg /\
    get_elevation Decimal.float_of_decimal Polyline.decode unit unit Example.methods
      (Ok Example.cfg) (Raise (OtherException "datasets unreadable")) Example.backend
      false "srtm" {| arg_interpolation := None; arg_locations := Some "200,50" |}
    = (Responds (invalid_request msg), []).
Proof.
  exact (locations_before_dataset Decimal.float_of_decimal Polyline.decode unit unit
           Example.methods (Ok Example.cfg) (Raise (OtherException "datasets unreadable"))
           Example.backend false "srtm"
           {| arg_interpolation := None; arg_locations := Some "200,50" |}
           Example.cfg _ ltac:(a_method) eq_refl ltac:(vm_compute; reflexivity)).
Defined.

(** X11 at a concrete input. *)
Lemma unknown_dataset_witness :
  Example.serve (Ok Example.cfg) Example.backend false "srtm"
    {| arg_interpolation := Some "cubic"; arg_locations := Some "-10,120" |}
  = (Responds (invalid_request "Dataset 'srtm' not in config."), []).
Proof.
  exact (unknown_dataset Decimal.float_of_decimal Polyline.decode unit unit
           Example.methods (Ok Example.cfg) (Ok Example.datasets) Example.backend false
           "srtm" {| arg_interpolation := Some "cubic"; arg_locations := Some "-10,120" |}
           Example.cfg ([(-10)%float], [120%float]) Example.datasets
           ltac:(a_method) eq_refl ltac:(vm_compute; reflexivity) eq_refl
           ltac:(vm_compute; reflexivity)).
Defined.

(** X12 at a concrete input. *)
Lemma success_response_witness :
  exists results,
    Example.serve (Ok Example.cfg) Example.backend false "test-dataset"
      {| arg_interpolation := None; arg_locations := Some "-10,120|3.5,4" |}
    = (Responds {| body := JObject [("status", JString "OK"); ("results", JList results)];
                   status_code := 200 |}, []) /\
    List.length results = 2%nat.
Proof.
  destruct (success_response Decimal.float_of_decimal Polyline.decode unit unit
              Example.methods (Ok Example.cfg) (Ok Example.datasets) Example.backend false
              "test-dataset"
              {| arg_interpolation := None; arg_locations := Some "-10,120|3.5,4" |}
              Example.cfg [(-10)%float; 3.5%float] [120%float; 4%float] Example.datasets tt
              [Some 815%float; Some 815%float]
              ltac:(a_method) eq_refl ltac:(vm_compute; reflexivity) eq_refl
              ltac:(vm_compute; reflexivity) ltac:(vm_compute; reflexivity))
    as (results & H & Hlen & _).
  exists results. split; [exact H | exact Hlen].
Defined.

(** X13 at a concrete input. *)
Lemma apply_cors_header_witness :
  exists answer,
    apply_cors (Ok Example.cfg)
      {| view_result := get_help_message;
         headers := {["content-type" := "application/json"]} |}
    = Ok answer /\
    headers answer !! "access-control-allow-origin" = Some "*" /\
    headers answer !! "content-type" = Some "application/json".
Proof.
  destruct (proj2 (apply_cors_header (Ok Example.cfg)
                     {| view_result := get_help_message;
                        headers := {["content-type" := "application/json"]} |}
                     Example.cfg eq_refl) ltac:(discriminate))
    as (answer & H & _ & Ho & Hrest & _).
  exists answer. split; [exact H|]. split; [exact Ho|].
  rewrite Hrest by discriminate. vm_compute. reflexivity.
Defined.

(** X14 at a concrete input. *)
Lemma every_answer_carries_origin_witness :
  exists answer log,
    elevation_request Decimal.float_of_decimal Polyline.decode unit unit Example.methods
      (Ok Example.cfg) (Ok Example.datasets) Example.backend false ∅ "srtm"
      {| arg_interpolation := None; arg_locations := Some "-10,120" |}
    = (Ok answer, log) /\
    headers answer !! "access-control-allow-origin" = Some "*".
Proof.
  destruct (every_answer_carries_origin Decimal.float_of_decimal Polyline.decode unit unit
              Example.methods (Ok Example.cfg) (Ok Example.datasets) Example.backend false
              ∅ "srtm" {| arg_interpolation := None; arg_locations := Some "-10,120" |}
              Example.cfg eq_refl eq_refl ltac:(discriminate))
    as (answer & log & H & Ho & _).
  exists answer, log. split; [exact H | exact Ho].
Defined.

(** X15 at a concrete input. *)
Lemma config_error_reaches_hook_witness :
  elevation_request Decimal.float_of_decimal Polyline.decode unit unit Example.methods
    (Raise (ConfigError "Missing config file.")) (Ok Example.datasets) Example.backend
    false ∅ "test-dataset"
    {| arg_interpolation := None; arg_locations := Some "-10,120" |}
  = (Raise (ConfigError "Missing config file."), []).
Proof.
  exact (config_error_reaches_hook Decimal.float_of_decimal Polyline.decode unit unit
           Example.methods (Raise (ConfigError "Missing config file."))
           (Ok Example.datasets) Example.backend false ∅ "test-dataset"
           {| arg_interpolation := None; arg_locations := Some "-10,120" |}
           "Missing config file." ltac:(a_method) eq_refl).
Defined.
